(** * image_classify: a Streamlit dashboard around a pretrained ResNet-50

    Shallow embedding of [image_classify.py].  The script is re-run by
    Streamlit from top to bottom on every interaction; one run is modelled
    as a computation in a state-and-exception monad over the session state,
    the file system and a trace of the calls the script makes to Streamlit
    and to the other libraries.  The libraries themselves (PIL, torch,
    captum, matplotlib, the operating system) are not part of the
    repository: their behaviour is a field of the environment [Env]. *)

From Stdlib Require Import QArith Strings.Byte Ascii String DecimalString.
From stdpp Require Import base option list sorting strings gmap.

Local Open Scope string_scope.
Local Open Scope nat_scope.

(** ** Python values and exceptions *)

Inductive Exn :=
  | IndexError
  | KeyError (key : string)
  | AttributeError (name : string)
  | TypeError
  | LibraryError (what : string).

Inductive result (A : Type) :=
  | Ok (a : A)
  | Raise (e : Exn).
Arguments Ok {A} a.
Arguments Raise {A} e.

Abbreviation bytes := (list byte).

(** ** Slices and indexing, as numpy and Python define them *)

Module Py.

(** [l[-n:]]: the last [n] elements, all of [l] when it is shorter. *)
Definition last_n {A} (n : nat) (l : list A) : list A :=
  drop (length l - n) l.

(** [l[::-1]] *)
Definition reversed {A} (l : list A) : list A := reverse l.

(** [l[i]] *)
Definition index {A} (l : list A) (i : nat) : result A :=
  match l !! i with
  | Some a => Ok a
  | None => Raise IndexError
  end.

(** [a[idxs]] for an integer array [idxs] (numpy fancy indexing). *)
Fixpoint fancy_index {A} (l : list A) (idxs : list nat) : result (list A) :=
  match idxs with
  | [] => Ok []
  | i :: idxs' =>
      match index l i, fancy_index l idxs' with
      | Ok a, Ok r => Ok (a :: r)
      | Raise e, _ => Raise e
      | _, Raise e => Raise e
      end
  end.

End Py.

(** ** [numpy.argsort] on a vector of probabilities

    The softmax outputs are float32 numbers; they are modelled as rationals
    (every finite float is one).  [argsort] returns the indices of the vector
    in ascending order of their values; the order it gives to equal values
    is the one of a stable sort. *)

Definition value_at (probs : list Q) (i : nat) : Q := nth i probs 0%Q.

Definition key_le (probs : list Q) : relation nat :=
  fun i j => (value_at probs i <= value_at probs j)%Q.

#[global] Instance key_le_dec probs : RelDecision (key_le probs).
Proof.
  intros i j. unfold key_le.
  destruct (Qle_bool (value_at probs i) (value_at probs j)) eqn:E.
  - left. by apply Qle_bool_iff.
  - right. intros H. apply Qle_bool_iff in H. congruence.
Defined.

Definition argsort (probs : list Q) : list nat :=
  merge_sort (key_le probs) (seq 0 (length probs)).

(** Lines 27-28 of [make_prediction], after the forward pass. *)
Definition top5 (probs : list Q) : result (list Q * list nat) :=
  let idxs := Py.reversed (Py.last_n 5 (argsort probs)) in
  match Py.fancy_index probs idxs with
  | Ok prob => Ok (prob, Py.reversed (Py.last_n 5 (argsort probs)))
  | Raise e => Raise e
  end.


(** ** Strings: [str.lower], [str.upper], [str(datetime)] *)

Definition nl : string := String (ascii_of_nat 10) "".

Definition lower_char (c : ascii) : ascii :=
  let n := nat_of_ascii c in
  if (65 <=? n) && (n <=? 90) then ascii_of_nat (n + 32) else c.

Definition upper_char (c : ascii) : ascii :=
  let n := nat_of_ascii c in
  if (97 <=? n) && (n <=? 122) then ascii_of_nat (n - 32) else c.

Fixpoint map_chars (f : ascii -> ascii) (s : string) : string :=
  match s with
  | EmptyString => EmptyString
  | String c s' => String (f c) (map_chars f s')
  end.

Definition lower : string -> string := map_chars lower_char.
Definition upper : string -> string := map_chars upper_char.

(** A naive [datetime.datetime], as [datetime.now()] returns it. *)
Record datetime := mkDatetime {
  year : N; month : N; day : N;
  hour : N; minute : N; second : N; microsecond : N }.

(** [str(n)] for a natural number. *)
Definition str_N (n : N) : string := NilZero.string_of_uint (N.to_uint n).

Fixpoint zeros (k : nat) : string :=
  match k with 0 => "" | S k' => String "0" (zeros k') end.

(** ["%0wd" % n] *)
Definition zfill (w : nat) (n : N) : string :=
  let s := str_N n in zeros (w - String.length s) +:+ s.

(** [str(d)], that is [d.isoformat(sep=' ')]: the microseconds are printed
    only when they are not zero. *)
Definition datetime_str (d : datetime) : string :=
  zfill 4 (year d) +:+ "-" +:+ zfill 2 (month d) +:+ "-" +:+ zfill 2 (day d)
  +:+ " " +:+ zfill 2 (hour d) +:+ ":" +:+ zfill 2 (minute d) +:+ ":"
  +:+ zfill 2 (second d)
  +:+ (if (microsecond d =? 0)%N then "" else "." +:+ zfill 6 (microsecond d)).


(** ** The objects the script handles *)

(** A decoded [PIL.Image]: the format its file was recognised as
    ([img.format], e.g. ["JPEG"]) and its pixel data. *)
Record Image := mkImage { format : string; pixels : bytes }.

(** What [st.file_uploader] hands to the script. *)
Record UploadedFile := mkUpload { name : string; data : bytes }.

Abbreviation Tensor := (list Q).
Abbreviation Attr := (list Q).

(** A loaded network in evaluation mode: the forward pass on one image. *)
Definition Model := Tensor -> result (list Q).

Inductive Figure :=
  | barh (y : list string) (width : list Q) (color : list string) (title : string)
  | imshow (img : Image)
  | image_attr (feature_imp : Attr) (title : string).

(** [st.session_state]: each attribute the script sets, absent until set. *)
Record SessionState := mkSession {
  ss_img : option Image;
  ss_probs : option (list Q);
  ss_idxs : option (list nat);
  ss_feature_imp : option Attr;
  ss_new_filename : option string;
  ss_img_byte_arr : option bytes }.

Definition empty_session : SessionState := mkSession None None None None None None.

(** What persists from one run of the script to the next. *)
Record State := mkState {
  session_state : SessionState;
  files : gmap string string;
  model_cache : option Model }.

Definition initial_state : State := mkState empty_session ∅ None.

(** The calls a run makes, in the order it makes them. *)
Inductive Event :=
  | st_sidebar_title (body : string)
  | st_sidebar_radio (label : string) (options : list string)
  | st_title (body : string)
  | st_subheader (body : string)
  | st_write (body : string)
  | st_success (body : string)
  | st_columns
  | st_file_uploader (label : string) (type : list string)
  | st_pyplot (fig : Figure)
  | st_download_button (label : string) (data : bytes) (file_name mime : string)
  | st_button (label : string)
  | st_text_area (label : string)
  | call_Image_open (upload : UploadedFile)
  | call_resnet50
  | call_preprocess (img : Image)
  | call_model (model : Model) (input : Tensor)
  | call_attribute (model : Model) (input : Tensor) (target : nat)
  | call_save (img : Image) (fmt : string)
  | call_open (file mode : string)
  | file_write (file text : string).

(** The libraries and the machine the script runs on. *)
Record Env := mkEnv {
  categories : list string;                       (* the ImageNet class names *)
  preprocess_func : Image -> result Tensor;
  resnet50 : result Model;
  softmax : list Q -> list Q;
  IntegratedGradients_attribute : Model -> Tensor -> nat -> result Attr;
  Image_open : UploadedFile -> result Image;
  Image_save : Image -> string -> result bytes;
  open_append : string -> result unit;             (* open(file, "a") *)
  file_write_to : string -> string -> result unit; (* f.write(text), f.close() *)
  datetime_now : datetime }.

(** What the user did in the browser before this run: the option selected
    in the sidebar, the file chosen in the uploader, the buttons pressed (by
    label) and the content of the text area, which may have several lines. *)
Record Widgets := mkWidgets {
  radio_index : nat;
  chosen_file : option UploadedFile;
  clicked : string -> bool;
  typed_text : string }.

(** ** The monad of a run *)

Record Outcome (A : Type) := mkOutcome {
  res : result A;
  final : State;
  out : list Event }.
Arguments mkOutcome {A}.
Arguments res {A}.
Arguments final {A}.
Arguments out {A}.

Definition M (A : Type) : Type := State -> Outcome A.

Definition ret {A} (a : A) : M A := fun s => mkOutcome (Ok a) s [].

Definition raise {A} (e : Exn) : M A := fun s => mkOutcome (Raise e) s [].

(** The events [l] happened before those of [o]. *)
Definition after {A} (l : list Event) (o : Outcome A) : Outcome A :=
  match o with
  | mkOutcome r s l' => mkOutcome r s (l ++ l')
  end.

(** Sequencing: an exception ends the computation where it is raised. *)
Definition bind {A B} (m : M A) (k : A -> M B) : M B := fun s =>
  match m s with
  | mkOutcome (Ok a) s' l => after l (k a s')
  | mkOutcome (Raise e) s' l => mkOutcome (Raise e) s' l
  end.

Notation "x <- m ;; k" := (bind m (fun x => k))
  (at level 100, m at next level, right associativity).
Notation "m ;;; k" := (bind m (fun _ => k))
  (at level 100, right associativity).

Definition lift {A} (r : result A) : M A :=
  match r with Ok a => ret a | Raise e => raise e end.

Definition emit (e : Event) : M unit := fun s => mkOutcome (Ok tt) s [e].

(** A call into a library: the call is recorded, then it returns or raises. *)
Definition call {A} (e : Event) (r : result A) : M A := emit e ;;; lift r.

Definition get_session : M SessionState := fun s =>
  mkOutcome (Ok (session_state s)) s [].

Definition set_session (f : SessionState -> SessionState) : M unit := fun s =>
  mkOutcome (Ok tt) (mkState (f (session_state s)) (files s) (model_cache s)) [].

(** ** The script *)

(** [s.endswith(suffix)] *)
Definition endswith (s suffix : string) : bool :=
  (String.length suffix <=? String.length s)
  && String.eqb
       (substring (String.length s - String.length suffix) (String.length suffix) s)
       suffix.

(** The filter [st.file_uploader] applies to a chosen file when it is given
    a [type] list: the lower-cased file name has to end with a dot and one of
    the listed extensions. *)
Definition accepts (type : list string) (f : UploadedFile) : bool :=
  existsb (fun t => endswith (lower (name f)) ("." +:+ lower t)) type.

Section Script.

Variable env : Env.
Variable w : Widgets.

(** *** Widgets

    Each returns what Streamlit returns for the state of the widget: the
    radio the selected option (the first one when nothing else is selected),
    a button whether it was pressed, and only when it is rendered. *)

Definition sidebar_radio (label : string) (options : list string) : M string :=
  emit (st_sidebar_radio label options) ;;;
  ret (default (hd "" options) (options !! radio_index w)).

Definition file_uploader (label : string) (type : list string)
  : M (option UploadedFile) :=
  emit (st_file_uploader label type) ;;;
  ret (match chosen_file w with
       | Some f => if accepts type f then Some f else None
       | None => None
       end).

Definition button (label : string) : M bool :=
  emit (st_button label) ;;; ret (clicked w label).

Definition text_area (label : string) : M string :=
  emit (st_text_area label) ;;; ret (typed_text w).

(** *** Files: [with open(file, "a") as f: f.write(text)]

    The file is opened, then the text is computed, then it is written; an
    exception of one of the three leaves the later ones undone. *)

Definition append_to (file text : string) : M unit := fun s =>
  mkOutcome (Ok tt)
    (mkState (session_state s)
             (<[file := default "" (files s !! file) +:+ text]> (files s))
             (model_cache s))
    [].

Definition write (file text : string) : M unit :=
  call (file_write file text) (file_write_to env file text) ;;;
  append_to file text.

Definition with_open_append (file : string) (text : M string) : M unit :=
  call (call_open file "a") (open_append env file) ;;;
  t <- text ;;
  write file t.

(** *** Lines 17-35 *)

(** [@st.cache_data]: the body runs when nothing is cached, and what it
    returns is cached. *)
Definition load_model : M Model := fun s =>
  match model_cache s with
  | Some model => ret model s
  | None =>
      (model <- call call_resnet50 (resnet50 env) ;;
       (fun s' => mkOutcome (Ok model)
                    (mkState (session_state s') (files s') (Some model)) [])) s
  end.

Definition make_prediction (model : Model) (processed_img : Tensor)
  : M (list Q * list nat) :=
  logits <- call (call_model model processed_img) (model processed_img) ;;
  let probs := softmax env logits in
  lift (top5 probs).

Definition interpret_prediction (model : Model) (processed_img : Tensor)
    (target : nat) : M Attr :=
  call (call_attribute model processed_img target)
       (IntegratedGradients_attribute env model processed_img target).

(** *** Lines 41-104: the "Image Classifier" view

    The plotting calls are taken to return; each plot shown is an event. *)

Definition set_img (img : Image) : M unit :=
  set_session (fun ss => mkSession (Some img) (ss_probs ss) (ss_idxs ss)
                 (ss_feature_imp ss) (ss_new_filename ss) (ss_img_byte_arr ss)).

Definition set_results (probs : list Q) (idxs : list nat) (feature_imp : Attr)
  : M unit :=
  set_session (fun ss => mkSession (ss_img ss) (Some probs) (Some idxs)
                 (Some feature_imp) (ss_new_filename ss) (ss_img_byte_arr ss)).

Definition set_new_filename (new_filename : string) : M unit :=
  set_session (fun ss => mkSession (ss_img ss) (ss_probs ss) (ss_idxs ss)
                 (ss_feature_imp ss) (Some new_filename) (ss_img_byte_arr ss)).

Definition set_img_byte_arr (b : bytes) : M unit :=
  set_session (fun ss => mkSession (ss_img ss) (ss_probs ss) (ss_idxs ss)
                 (ss_feature_imp ss) (ss_new_filename ss) (Some b)).

Definition classify (img : Image) : M unit :=
  let img_format := lower (format img) in
  model <- load_model ;;
  preprocessed_img <- call (call_preprocess img) (preprocess_func env img) ;;
  r <- make_prediction model preprocessed_img ;;
  let probs := fst r in
  let idxs := snd r in
  target <- lift (Py.index idxs 0) ;;
  feature_imp <- interpret_prediction model preprocessed_img target ;;
  set_results probs idxs feature_imp ;;;
  y <- lift (Py.fancy_index (categories env) idxs) ;;
  emit (st_pyplot (barh (Py.reversed y) (Py.reversed probs)
                    (replicate 4 "dodgerblue" ++ ["tomato"])
                    "Top 5 Probabilities")) ;;;
  let interp_fig := image_attr feature_imp "Integrated Gradients Attributions" in
  emit st_columns ;;;
  emit (st_pyplot (imshow img)) ;;;
  emit (st_pyplot interp_fig) ;;;
  names <- lift (Py.fancy_index (categories env) idxs) ;;
  top_category <- lift (Py.index names 0) ;;
  let new_filename := top_category +:+ "." +:+ img_format in
  set_new_filename new_filename ;;;
  img_byte_arr <- call (call_save img (upper img_format))
                       (Image_save env img (upper img_format)) ;;
  set_img_byte_arr img_byte_arr ;;;
  emit (st_download_button "Download Renamed Image" img_byte_arr new_filename
          ("image/" +:+ img_format)).

Definition classifier_page : M unit :=
  emit (st_title "ResNet-50 Image Classifier") ;;;
  upload <- file_uploader "Upload Image:" ["png"; "jpg"; "jpeg"] ;;
  ss <- get_session ;;
  match upload, ss_img ss with
  | Some u, _ =>
      img <- call (call_Image_open u) (Image_open env u) ;;
      set_img img ;;;
      classify img
  | None, Some img => classify img
  | None, None => ret tt
  end.

(** *** Lines 106-133: the "Connect to Us" view *)

Definition feedback_button (label word : string) : M unit :=
  pressed <- button label ;;
  if pressed : bool then
    with_open_append "feedback.txt"
      (ss <- get_session ;;
       match ss_new_filename ss with
       | Some new_filename => ret (word +:+ " for " +:+ new_filename +:+ nl)
       | None => raise (AttributeError "new_filename")
       end) ;;;
    emit (st_success "Thank you for your feedback!")
  else ret tt.

Definition connect_page : M unit :=
  emit (st_title "Connect to Us") ;;;
  emit (st_write "We'd love to hear from you!") ;;;
  emit (st_subheader "Feedback") ;;;
  emit (st_write "Did you find the output useful?") ;;;
  emit st_columns ;;;
  ss <- get_session ;;
  match ss_new_filename ss with
  | Some _ =>
      feedback_button "👍 Like" "Like" ;;;
      feedback_button "👎 Dislike" "Dislike"
  | None => ret tt
  end ;;;
  comment <- text_area "Leave your comment here:" ;;
  submit <- button "Submit Comment" ;;
  if submit : bool then
    with_open_append "user_comments.txt"
      (ret (datetime_str (datetime_now env) +:+ ": " +:+ comment +:+ nl)) ;;;
    emit (st_success "Thank you for your comment!")
  else ret tt.

(** *** The whole script: one run *)

Definition script : M unit :=
  emit (st_sidebar_title "Navigation") ;;;
  page <- sidebar_radio "Go to" ["Image Classifier"; "Connect to Us"] ;;
  if String.eqb page "Image Classifier" then classifier_page
  else if String.eqb page "Connect to Us" then connect_page
  else ret tt.

End Script.

Definition run (env : Env) (w : Widgets) (s : State) : Outcome unit :=
  script env w s.

(** A session: the runs Streamlit makes one after the other, each on the
    state the previous one left (also when that one raised). *)
Fixpoint session (runs : list (Env * Widgets)) (s : State) : State :=
  match runs with
  | [] => s
  | (env, w) :: runs' => session runs' (final (run env w s))
  end.


(** * The vocabulary of the properties *)

(** What "the five highest, in descending order, with their indices" says of
    a result [(prob, idxs)] for the vector [probs]. *)
Definition is_top5 (probs prob : list Q) (idxs : list nat) : Prop :=
  length prob = 5 ∧ length idxs = 5 ∧ NoDup idxs ∧
  (∀ k i, idxs !! k = Some i → is_Some (probs !! i) ∧ prob !! k = probs !! i) ∧
  (∀ a b p q, a ≤ b → prob !! a = Some p → prob !! b = Some q → (q <= p)%Q) ∧
  (∀ j x p, probs !! j = Some x → j ∉ idxs → p ∈ prob → (x <= p)%Q).

(** [i] is an index of a largest entry of [probs]. *)
Definition is_argmax (probs : list Q) (i : nat) : Prop :=
  is_Some (probs !! i) ∧ ∀ j x, probs !! j = Some x → (x <= value_at probs i)%Q.

(** The view the sidebar radio returns for what the user selected. *)
Definition page_of (w : Widgets) : string :=
  default "Image Classifier" (["Image Classifier"; "Connect to Us"] !! radio_index w).

(** The file the uploader of line 44 hands to the script. *)
Definition accepted_upload (w : Widgets) : option UploadedFile :=
  match chosen_file w with
  | Some f => if accepts ["png"; "jpg"; "jpeg"] f then Some f else None
  | None => None
  end.

(** The image lines 46-51 classify: the one just uploaded, else the one a
    previous run left in the session state. *)
Definition classified_image (env : Env) (w : Widgets) (s : State) : option Image :=
  match accepted_upload w with
  | Some u => match Image_open env u with Ok img => Some img | Raise _ => None end
  | None => ss_img (session_state s)
  end.

(** The network [load_model] returns in state [s]. *)
Definition current_model (env : Env) (s : State) : result Model :=
  match model_cache s with
  | Some model => Ok model
  | None => resnet50 env
  end.

(** The network and the input tensor lines 55-56 compute for [img]. *)
Definition prepared (env : Env) (s : State) (img : Image)
    (model : Model) (input : Tensor) : Prop :=
  current_model env s = Ok model ∧ preprocess_func env img = Ok input.

(** [make_prediction model input] returns [(prob, idxs)], computed from the
    softmax outputs [probs]. *)
Definition predicts (env : Env) (model : Model) (input : Tensor)
    (probs prob : list Q) (idxs : list nat) : Prop :=
  ∃ logits,
    model input = Ok logits ∧ probs = softmax env logits ∧
    ∀ s, res (make_prediction env model input s) = Ok (prob, idxs).

(** The events by which a run names and encodes the classified image
    (lines 95-99). *)
Definition names_image (env : Env) (w : Widgets) (s : State) : Prop :=
  ∃ img fmt, call_save img fmt ∈ out (run env w s).

(** What line 132 writes for the comment typed in the text area. *)
Definition comment_text (env : Env) (w : Widgets) : string :=
  datetime_str (datetime_now env) +:+ ": " +:+ typed_text w +:+ nl.

(** What lines 119 and 125 write. *)
Definition feedback_text (word new_filename : string) : string :=
  word +:+ " for " +:+ new_filename +:+ nl.

(** The file name of an upload ends with one of the three extensions,
    whatever the case of its letters. *)
Definition has_image_extension (f : UploadedFile) : bool :=
  endswith (lower (name f)) ".png" || endswith (lower (name f)) ".jpg"
  || endswith (lower (name f)) ".jpeg".

(** The texts a trace passes to [f.write] for [file], in order. *)
Fixpoint texts_written (file : string) (l : list Event) : list string :=
  match l with
  | [] => []
  | file_write f t :: l' =>
      if String.eqb f file then t :: texts_written file l'
      else texts_written file l'
  | _ :: l' => texts_written file l'
  end.

Definition raised {A} (r : result A) : option Exn :=
  match r with Ok _ => None | Raise e => Some e end.

(** The exception a recorded library call ended with, if it failed. *)
Definition failure (env : Env) (e : Event) : option Exn :=
  match e with
  | call_Image_open u => raised (Image_open env u)
  | call_resnet50 => raised (resnet50 env)
  | call_preprocess img => raised (preprocess_func env img)
  | call_model model input => raised (model input)
  | call_attribute model input target =>
      raised (IntegratedGradients_attribute env model input target)
  | call_save img fmt => raised (Image_save env img fmt)
  | call_open file _ => raised (open_append env file)
  | file_write file text => raised (file_write_to env file text)
  | _ => None
  end.

(** A trace in which a failing call, if there is one, is the last event and
    its exception is the one the computation ends with. *)
Fixpoint fail_stop_trace (env : Env) (x : option Exn) (l : list Event) : Prop :=
  match l with
  | [] => True
  | e :: l' =>
      match failure env e with
      | Some exn => l' = [] ∧ x = Some exn
      | None => fail_stop_trace env x l'
      end
  end.

(** Events of the classification view: upload, model, plots, download. *)
Definition is_classifier_event (e : Event) : bool :=
  match e with
  | st_file_uploader _ _ | call_Image_open _ | call_resnet50 | call_preprocess _
  | call_model _ _ | call_attribute _ _ _ | st_pyplot _ | call_save _ _
  | st_download_button _ _ _ _ => true
  | _ => false
  end.

(** Events that open or write one of the two flat files. *)
Definition is_file_event (e : Event) : bool :=
  match e with
  | call_open _ _ | file_write _ _ => true
  | _ => false
  end.

(** The feedback part of the "Connect to Us" view: the two buttons and what
    goes to [feedback.txt]. *)
Definition is_feedback_event (e : Event) : bool :=
  match e with
  | st_button label => String.eqb label "👍 Like" || String.eqb label "👎 Dislike"
  | call_open file _ | file_write file _ => String.eqb file "feedback.txt"
  | _ => false
  end.

(** Events [classify] produces (lines 53-104), as opposed to those of the
    page around it and of the other view. *)
Definition of_classify (e : Event) : bool :=
  match e with
  | call_resnet50 | call_preprocess _ | call_model _ _ | call_attribute _ _ _
  | st_pyplot _ | call_save _ _ | st_download_button _ _ _ _ => true
  | _ => false
  end.

(** Every event of a computation satisfies [P]. *)
Definition every {A} (P : Event → Prop) (m : M A) : Prop :=
  ∀ s, Forall P (out (m s)).

(** A computation whose failing library call ends it, with its exception. *)
Definition fail_stop {A} (env : Env) (m : M A) : Prop :=
  ∀ s, fail_stop_trace env (raised (res (m s))) (out (m s)).

(** *** Text *)

Definition is_digit (c : ascii) : bool :=
  let n := nat_of_ascii c in (48 <=? n) && (n <=? 57).

Definition is_lower (c : ascii) : bool :=
  let n := nat_of_ascii c in (97 <=? n) && (n <=? 122).

Fixpoint all_chars (p : ascii → bool) (s : string) : bool :=
  match s with
  | EmptyString => true
  | String c s' => p c && all_chars p s'
  end.

Fixpoint count_char (c : ascii) (s : string) : nat :=
  match s with
  | EmptyString => 0
  | String c' s' => (if Ascii.eqb c c' then 1 else 0) + count_char c s'
  end.

(** The number of lines of a text in which every line ends with a newline. *)
Definition count_lines (text : string) : nat := count_char (ascii_of_nat 10) text.

Fixpoint starts_with_pattern (pattern : list (ascii → bool)) (s : string) : bool :=
  match pattern, s with
  | [], _ => true
  | p :: pattern', String c s' => p c && starts_with_pattern pattern' s'
  | _ :: _, EmptyString => false
  end.

(** [YYYY-MM-DD HH:MM:SS] *)
Definition timestamp_pattern : list (ascii → bool) :=
  [is_digit; is_digit; is_digit; is_digit; Ascii.eqb "-";
   is_digit; is_digit; Ascii.eqb "-"; is_digit; is_digit; Ascii.eqb " ";
   is_digit; is_digit; Ascii.eqb ":"; is_digit; is_digit; Ascii.eqb ":";
   is_digit; is_digit].

(** Some position of [s] starts a timestamp. *)
Fixpoint has_timestamp (s : string) : bool :=
  starts_with_pattern timestamp_pattern s
  || match s with
     | EmptyString => false
     | String _ s' => has_timestamp s'
     end.

Definition two_digits (s : string) : bool :=
  match s with
  | String a (String b EmptyString) => is_digit a && is_digit b
  | _ => false
  end.

Definition four_digits (s : string) : bool :=
  match s with
  | String a (String b s') => is_digit a && is_digit b && two_digits s'
  | _ => false
  end.

(** The range of the fields of a Python [datetime]. *)
Definition valid_datetime (d : datetime) : Prop :=
  (1 ≤ year d ≤ 9999 ∧ 1 ≤ month d ≤ 12 ∧ 1 ≤ day d ≤ 31 ∧
   hour d < 24 ∧ minute d < 60 ∧ second d < 60 ∧ microsecond d < 1000000)%N.

(** * A small environment to run the script in

    Seven classes, a network that returns its input, a normalisation in the
    place of softmax, and a container format with a start marker [ff d8],
    the pixel bytes, and an end marker [d9] after which a decoder ignores
    what follows. *)

Definition demo_categories : list string :=
  ["tench"; "goldfish"; "great white shark"; "tiger shark"; "hammerhead";
   "electric ray"; "stingray"].

Definition normalise (l : list Q) : list Q :=
  let total := foldr Qplus 0%Q l in map (fun x => Qred (x / total)%Q) l.

Fixpoint until_end_marker (b : bytes) : option bytes :=
  match b with
  | [] => None
  | xd9 :: _ => Some []
  | c :: b' => option_map (cons c) (until_end_marker b')
  end.

Definition demo_open (u : UploadedFile) : result Image :=
  match data u with
  | xff :: xd8 :: body =>
      match until_end_marker body with
      | Some px => Ok (mkImage "JPEG" px)
      | None => Raise (LibraryError "OSError: image file is truncated")
      end
  | _ => Raise (LibraryError "UnidentifiedImageError")
  end.

Definition demo_save (img : Image) (fmt : string) : result bytes :=
  if String.eqb fmt "JPEG" then Ok (xff :: xd8 :: pixels img ++ [xd9])%list
  else Raise (KeyError fmt).

Definition demo_preprocess (img : Image) : result Tensor :=
  Ok (map (fun b => inject_Z (Z.of_nat (Byte.to_nat b))) (pixels img)).

Definition demo_model : Model := fun input => Ok input.

Definition demo_now : datetime := mkDatetime 2024 5 1 9 3 7 1250.

Definition demo_env : Env :=
  mkEnv demo_categories demo_preprocess (Ok demo_model) normalise
        (fun _ input _ => Ok input) demo_open demo_save
        (fun _ => Ok tt) (fun _ _ => Ok tt) demo_now.

(** The same machine with a read-only working directory. *)
Definition readonly_env : Env :=
  mkEnv demo_categories demo_preprocess (Ok demo_model) normalise
        (fun _ input _ => Ok input) demo_open demo_save
        (fun _ => Raise (LibraryError "PermissionError")) (fun _ _ => Ok tt)
        demo_now.

(** The same machine with a full disk. *)
Definition full_disk_env : Env :=
  mkEnv demo_categories demo_preprocess (Ok demo_model) normalise
        (fun _ input _ => Ok input) demo_open demo_save
        (fun _ => Ok tt) (fun _ _ => Raise (LibraryError "OSError: No space left"))
        demo_now.

Definition nothing_clicked : string → bool := fun _ => false.

Definition only (label : string) : string → bool := fun l => String.eqb l label.

(** A seven-pixel picture, with one byte after its end marker. *)
Definition cat_jpg : UploadedFile :=
  mkUpload "cat.jpg" [xff; xd8; x02; x0a; x00; x04; x01; x03; x00; xd9; x00].

Definition cat_img : Image := mkImage "JPEG" [x02; x0a; x00; x04; x01; x03; x00].

Definition w_upload : Widgets := mkWidgets 0 (Some cat_jpg) nothing_clicked "".

Definition w_like : Widgets := mkWidgets 1 None (only "👍 Like") "".

Definition w_comment (text : string) : Widgets :=
  mkWidgets 1 None (only "Submit Comment") text.

(** The state a first run that classified [cat.jpg] leaves. *)
Definition after_upload : State := final (run demo_env w_upload initial_state).

(** An upload that is no image, a machine that cannot fetch the weights. *)
Definition notes_png : UploadedFile := mkUpload "notes.png" [x23; x20; x54; x6f].

Definition w_bad_upload : Widgets := mkWidgets 0 (Some notes_png) nothing_clicked "".

Definition offline_env : Env :=
  mkEnv demo_categories demo_preprocess (Raise (LibraryError "URLError")) normalise
        (fun _ input _ => Ok input) demo_open demo_save
        (fun _ => Ok tt) (fun _ _ => Ok tt) demo_now.

(** * Further vocabulary *)

(** What a file holds; a file that does not exist holds nothing. *)
Definition content (s : State) (file : string) : string :=
  default "" (files s !! file).

(** The session state with other values under [probs], [idxs],
    [feature_imp] and [img_byte_arr]. *)
Definition with_results (ss : SessionState) (probs : option (list Q))
    (idxs : option (list nat)) (feature_imp : option Attr)
    (img_byte_arr : option bytes) : SessionState :=
  mkSession (ss_img ss) probs idxs feature_imp (ss_new_filename ss) img_byte_arr.

(** [is_top5] for a vector that may have fewer than five entries: the [n]
    highest, in descending order, with their indices. *)
Definition is_top_n (n : nat) (probs prob : list Q) (idxs : list nat) : Prop :=
  length prob = n ∧ length idxs = n ∧ NoDup idxs ∧
  (∀ k i, idxs !! k = Some i → is_Some (probs !! i) ∧ prob !! k = probs !! i) ∧
  (∀ a b p q, a ≤ b → prob !! a = Some p → prob !! b = Some q → (q <= p)%Q) ∧
  (∀ j x p, probs !! j = Some x → j ∉ idxs → p ∈ prob → (x <= p)%Q).

(** A machine on which the model is already cached. *)
Definition warm_state : State := mkState empty_session ∅ (Some demo_model).

(** What a run shows and what later runs can depend on: its result, its
    events, the files, the cached model, and the session state under [img]
    and [new_filename]. *)
Definition observable (o : Outcome unit) :=
  (res o, out o, files (final o), model_cache (final o),
   ss_img (session_state (final o)), ss_new_filename (session_state (final o))).


(** A machine on which no image can be encoded. *)
Definition no_codec_env : Env :=
  mkEnv demo_categories demo_preprocess (Ok demo_model) normalise
        (fun _ input _ => Ok input) demo_open
        (fun _ _ => Raise (LibraryError "OSError: encoder error"))
        (fun _ => Ok tt) (fun _ _ => Ok tt) demo_now.

(** * Examples of the definitions *)

Example top5_ex :
  top5 [(1#10); (5#10); (0#1); (2#10); (1#20); (3#20); (0#1)]%Q
  = Ok ([(5#10); (2#10); (3#20); (1#10); (1#20)]%Q, [1; 3; 5; 0; 4]).
Proof. vm_compute. reflexivity. Qed.

Example datetime_str_ex :
  datetime_str (mkDatetime 2024 5 1 9 3 7 1250) = "2024-05-01 09:03:07.001250".
Proof. reflexivity. Qed.

(** * Ranking: [argsort] and the top five *)

#[global] Instance key_le_trans probs : Transitive (key_le probs).
Proof. intros i j k. unfold key_le. apply Qle_trans. Qed.

#[global] Instance key_le_refl probs : Reflexive (key_le probs).
Proof. intros i. unfold key_le. apply Qle_refl. Qed.

#[global] Instance key_le_total probs : Total (key_le probs).
Proof.
  intros i j. unfold key_le.
  destruct (Qlt_le_dec (value_at probs i) (value_at probs j)) as [H|H].
  - left. by apply Qlt_le_weak.
  - by right.
Qed.

Lemma argsort_perm probs : argsort probs ≡ₚ seq 0 (length probs).
Proof. apply merge_sort_Permutation. Qed.

Lemma argsort_sorted probs : StronglySorted (key_le probs) (argsort probs).
Proof. apply StronglySorted_merge_sort; apply _. Qed.

Lemma argsort_length probs : length (argsort probs) = length probs.
Proof. by rewrite (Permutation_length (argsort_perm probs)), length_seq. Qed.

Lemma argsort_NoDup probs : NoDup (argsort probs).
Proof. rewrite (argsort_perm probs). apply NoDup_seq. Qed.

Lemma elem_of_argsort probs i : i ∈ argsort probs ↔ i < length probs.
Proof. rewrite (argsort_perm probs), elem_of_seq. lia. Qed.

Lemma StronglySorted_lookup_le {A} (R : relation A) `{!Reflexive R} (l : list A) :
  StronglySorted R l →
  ∀ i j x y, i ≤ j → l !! i = Some x → l !! j = Some y → R x y.
Proof.
  induction 1 as [|a l Hs IH Hall]; intros i j x y Hij Hi Hj.
  - by rewrite lookup_nil in Hi.
  - destruct i as [|i], j as [|j]; simpl in *; simplify_eq.
    + reflexivity.
    + rewrite Forall_forall in Hall. apply Hall.
      eapply list_elem_of_lookup_2. exact Hj.
    + lia.
    + eapply IH; [|exact Hi|exact Hj]. lia.
Qed.

Lemma value_at_lookup probs i x : probs !! i = Some x → value_at probs i = x.
Proof. intros H. unfold value_at. by rewrite nth_lookup, H. Qed.

Lemma fancy_index_Forall2 {A} (l : list A) idxs r :
  Py.fancy_index l idxs = Ok r → Forall2 (λ i a, l !! i = Some a) idxs r.
Proof.
  revert r. induction idxs as [|i idxs IH]; intros r H; simpl in H.
  - injection H as <-. constructor.
  - unfold Py.index in H. destruct (l !! i) as [a|] eqn:Hi; [|done].
    destruct (Py.fancy_index l idxs) as [r'|e]; [|done].
    injection H as <-. constructor; auto.
Qed.

Lemma fancy_index_total {A} (l : list A) idxs :
  Forall (λ i, i < length l) idxs → ∃ r, Py.fancy_index l idxs = Ok r.
Proof.
  induction 1 as [|i idxs Hi _ [r IH]]; simpl.
  - by eexists.
  - unfold Py.index. destruct (lookup_lt_is_Some_2 l i Hi) as [a ->].
    rewrite IH. by eexists.
Qed.

Section Top5.

Variable probs : list Q.
Hypothesis enough : 5 ≤ length probs.

Let tail5 := Py.last_n 5 (argsort probs).

Lemma argsort_split :
  argsort probs = (take (length probs - 5) (argsort probs) ++ tail5)%list.
Proof.
  unfold tail5, Py.last_n. by rewrite argsort_length, take_drop.
Qed.

Lemma tail5_length : length tail5 = 5.
Proof.
  unfold tail5, Py.last_n. rewrite length_drop, argsort_length. lia.
Qed.

Lemma tail5_sorted : StronglySorted (key_le probs) tail5.
Proof.
  pose proof (argsort_sorted probs) as H. rewrite argsort_split in H.
  by apply StronglySorted_app_1_r in H.
Qed.

Lemma tail5_in_range i : i ∈ tail5 → i < length probs.
Proof.
  intros H. apply elem_of_argsort. rewrite argsort_split.
  apply elem_of_app. by right.
Qed.

Lemma tail5_NoDup : NoDup tail5.
Proof.
  pose proof (argsort_NoDup probs) as H. rewrite argsort_split in H.
  apply NoDup_app in H. tauto.
Qed.

Lemma tail5_dominates j i :
  j < length probs → j ∉ tail5 → i ∈ tail5 → key_le probs j i.
Proof.
  intros Hj Hnot Hi. apply elem_of_argsort in Hj.
  rewrite argsort_split in Hj. apply elem_of_app in Hj as [Hj|Hj]; [|done].
  pose proof (argsort_sorted probs) as H. rewrite argsort_split in H.
  eapply StronglySorted_app_1_elem_of; eauto.
Qed.

Lemma top5_spec :
  ∃ prob idxs, top5 probs = Ok (prob, idxs) ∧ is_top5 probs prob idxs.
Proof.
  unfold top5. fold tail5.
  destruct (fancy_index_total probs (Py.reversed tail5)) as [prob Hprob].
  { apply Forall_forall. intros i Hi. apply tail5_in_range.
    by apply elem_of_reverse. }
  rewrite Hprob. exists prob, (Py.reversed tail5). split; [done|].
  apply fancy_index_Forall2 in Hprob.
  assert (Hlen : length (Py.reversed tail5) = 5)
    by (unfold Py.reversed; rewrite length_reverse; apply tail5_length).
  repeat split.
  - by rewrite <- (Forall2_length _ _ _ Hprob).
  - done.
  - unfold Py.reversed. rewrite reverse_Permutation. apply tail5_NoDup.
  - destruct (Forall2_lookup_l _ _ _ _ _ Hprob H) as (p & _ & Hp). eauto.
  - destruct (Forall2_lookup_l _ _ _ _ _ Hprob H) as (p & Hk & Hp). congruence.
  - intros a b p q Hab Ha Hb.
    destruct (Forall2_lookup_r _ _ _ _ _ Hprob Ha) as (i & Hi & Hpi).
    destruct (Forall2_lookup_r _ _ _ _ _ Hprob Hb) as (j & Hj & Hqj).
    unfold Py.reversed in Hi, Hj.
    apply reverse_lookup_Some in Hi as [Hi Hai], Hj as [Hj Hbj].
    assert (key_le probs j i) as Hle.
    { eapply (StronglySorted_lookup_le _ _ tail5_sorted); [|exact Hj|exact Hi].
      lia. }
    unfold key_le in Hle.
    by rewrite (value_at_lookup _ _ _ Hpi), (value_at_lookup _ _ _ Hqj) in Hle.
  - intros j x p Hx Hnot Hp.
    apply list_elem_of_lookup in Hp as [k Hk].
    destruct (Forall2_lookup_r _ _ _ _ _ Hprob Hk) as (i & Hi & Hpi).
    assert (key_le probs j i) as Hle.
    { apply tail5_dominates.
      - eapply lookup_lt_Some; eauto.
      - intros Hin. apply Hnot. by apply elem_of_reverse.
      - apply elem_of_reverse. eapply list_elem_of_lookup_2; eauto. }
    unfold key_le in Hle.
    by rewrite (value_at_lookup _ _ _ Hpi), (value_at_lookup _ _ _ Hx) in Hle.
Qed.

End Top5.

Lemma top5_head_max probs prob idxs i0 :
  top5 probs = Ok (prob, idxs) → idxs !! 0 = Some i0 → is_argmax probs i0.
Proof.
  unfold top5. destruct (Py.fancy_index _ _) as [r|e]; [|done].
  intros [= <- <-] H0.
  unfold Py.reversed, Py.last_n in H0.
  apply reverse_lookup_Some in H0 as [H0 Hpos].
  rewrite length_drop, argsort_length in *.
  rewrite lookup_drop in H0.
  assert (Hin : i0 < length probs).
  { apply elem_of_argsort. eapply list_elem_of_lookup_2. exact H0. }
  split; [by apply lookup_lt_is_Some_2|].
  intros j x Hj.
  assert (Hjin : j ∈ argsort probs).
  { apply elem_of_argsort. eapply lookup_lt_Some. exact Hj. }
  apply list_elem_of_lookup in Hjin as [k Hk].
  pose proof (lookup_lt_Some _ _ _ Hk) as Hklt. rewrite argsort_length in Hklt.
  assert (key_le probs j i0) as Hle.
  { eapply (StronglySorted_lookup_le _ _ (argsort_sorted probs)); [|exact Hk|exact H0].
    lia. }
  unfold key_le in Hle. by rewrite (value_at_lookup _ _ _ Hj) in Hle.
Qed.

(** * [make_prediction] *)

Lemma make_prediction_res env model processed_img s :
  res (make_prediction env model processed_img s)
  = match model processed_img with
    | Ok logits => top5 (softmax env logits)
    | Raise e => Raise e
    end.
Proof.
  unfold make_prediction, call, bind, emit.
  destruct (model processed_img) as [logits|e]; simpl; [|done].
  by destruct (top5 (softmax env logits)).
Qed.

(** C1. When the forward pass returns and the classifier has at least five
    categories, [make_prediction] returns a vector [prob] of five
    probabilities and a vector [idxs] of five distinct category indices such
    that [prob[k]] is the softmax output at index [idxs[k]], [prob] is in
    descending order, and no softmax output outside [idxs] exceeds one of
    [prob]. *)
Theorem make_prediction_top5 env model processed_img logits s :
  model processed_img = Ok logits →
  5 ≤ length (softmax env logits) →
  ∃ prob idxs,
    res (make_prediction env model processed_img s) = Ok (prob, idxs) ∧
    is_top5 (softmax env logits) prob idxs.
Proof.
  intros Hmodel Hlen. rewrite make_prediction_res, Hmodel.
  apply top5_spec, Hlen.
Qed.

Lemma make_prediction_top5_witness :
  ∃ prob idxs,
    res (make_prediction demo_env demo_model
           [2; 10; 0; 4; 1; 3; 0]%Q initial_state) = Ok (prob, idxs) ∧
    is_top5 (softmax demo_env [2; 10; 0; 4; 1; 3; 0]%Q) prob idxs.
Proof.
  apply (make_prediction_top5 demo_env demo_model _ [2; 10; 0; 4; 1; 3; 0]%Q).
  - reflexivity.
  - vm_compute. lia.
Defined.

Example make_prediction_demo :
  res (make_prediction demo_env demo_model [2; 10; 0; 4; 1; 3; 0]%Q initial_state)
  = Ok ([(1 # 2); (1 # 5); (3 # 20); (1 # 10); (1 # 20)]%Q, [1; 3; 5; 0; 4]).
Proof. vm_compute. reflexivity. Qed.

(** * Reasoning about a run, one bind at a time *)

Lemma out_bind {A B} (m : M A) (k : A → M B) s :
  out (bind m k s)
  = match res (m s) with
    | Ok a => (out (m s) ++ out (k a (final (m s))))%list
    | Raise _ => out (m s)
    end.
Proof.
  unfold bind. destruct (m s) as [[a|e] s' l]; [|done].
  simpl. by destruct (k a s').
Qed.

Lemma res_bind {A B} (m : M A) (k : A → M B) s :
  res (bind m k s)
  = match res (m s) with
    | Ok a => res (k a (final (m s)))
    | Raise e => Raise e
    end.
Proof.
  unfold bind. destruct (m s) as [[a|e] s' l]; [|done].
  simpl. by destruct (k a s').
Qed.

Lemma final_bind {A B} (m : M A) (k : A → M B) s :
  final (bind m k s)
  = match res (m s) with
    | Ok a => final (k a (final (m s)))
    | Raise e => final (m s)
    end.
Proof.
  unfold bind. destruct (m s) as [[a|e] s' l]; [|done].
  simpl. by destruct (k a s').
Qed.

(** ** Properties of every event *)

Section Every.

Context {P : Event → Prop}.

Lemma every_ret {A} (a : A) : every P (ret a).
Proof. intros s. constructor. Qed.

Lemma every_raise {A} e : every P (raise (A := A) e).
Proof. intros s. constructor. Qed.

Lemma every_lift {A} (r : result A) : every P (lift r).
Proof. destruct r; [apply every_ret | apply every_raise]. Qed.

Lemma every_emit e : P e → every P (emit e).
Proof. intros H s. by repeat constructor. Qed.

Lemma every_get_session : every P get_session.
Proof. intros s. constructor. Qed.

Lemma every_set_session f : every P (set_session f).
Proof. intros s. constructor. Qed.

Lemma every_bind {A B} (m : M A) (k : A → M B) :
  every P m → (∀ a, every P (k a)) → every P (bind m k).
Proof.
  intros Hm Hk s. rewrite out_bind. specialize (Hm s).
  destruct (res (m s)); [|done]. apply Forall_app. split; [done | apply Hk].
Qed.

Lemma every_call {A} e (r : result A) : P e → every P (call e r).
Proof.
  intros H. apply every_bind; [by apply every_emit | intros _; apply every_lift].
Qed.

Lemma every_write env file text :
  P (file_write file text) → every P (write env file text).
Proof.
  intros H. apply every_bind; [by apply every_call | intros _ s]. constructor.
Qed.

End Every.

Lemma every_impl {A} (P Q : Event → Prop) (m : M A) :
  (∀ e, P e → Q e) → every P m → every Q m.
Proof. intros H Hm s. eapply Forall_impl; [apply Hm | done]. Qed.

(** One step of a proof that every event of a script satisfies a property
    that holds of its events by computation: the rule is chosen by the head
    of the computation. *)
Ltac every_step :=
  lazymatch goal with
  | |- every _ (call _ _) => apply every_call; reflexivity
  | |- every _ (bind _ _) => apply every_bind; [|intros ?]
  | |- every _ (emit _) => apply every_emit; reflexivity
  | |- every _ (write _ _ _) => apply every_write; reflexivity
  | |- every _ (ret _) => apply every_ret
  | |- every _ (raise _) => apply every_raise
  | |- every _ (lift _) => apply every_lift
  | |- every _ get_session => apply every_get_session
  | |- every _ (set_session _) => apply every_set_session
  | |- every _ (match ?x with _ => _ end) => destruct x
  end.

(** ** Failing calls *)

Lemma fail_stop_trace_app env x l1 l2 :
  fail_stop_trace env None l1 → fail_stop_trace env x l2 →
  fail_stop_trace env x (l1 ++ l2).
Proof.
  intros H1 H2. induction l1 as [|e l1 IH]; simpl in *; [done|].
  destruct (failure env e).
  - by destruct H1.
  - by apply IH.
Qed.

Lemma fail_stop_trace_split env x pre e post exn :
  fail_stop_trace env x (pre ++ e :: post) → failure env e = Some exn →
  post = [] ∧ x = Some exn ∧ Forall (λ e', failure env e' = None) pre.
Proof.
  intros H He. induction pre as [|e' pre IH]; simpl in H.
  - rewrite He in H. destruct H. by repeat split.
  - destruct (failure env e') eqn:E.
    + destruct H as [H _]. by destruct pre.
    + destruct (IH H) as (? & ? & ?). repeat split; auto.
Qed.

Section FailStop.

Variable env : Env.

Lemma fail_stop_silent {A} (m : M A) : (∀ s, out (m s) = []) → fail_stop env m.
Proof. intros H s. by rewrite H. Qed.

Lemma fail_stop_lift {A} (r : result A) : fail_stop env (lift r).
Proof. apply fail_stop_silent. intros s. by destruct r. Qed.

Lemma fail_stop_emit e : failure env e = None → fail_stop env (emit e).
Proof. intros H s. simpl. by rewrite H. Qed.


Lemma fail_stop_call {A} e (r : result A) :
  failure env e = raised r → fail_stop env (call e r).
Proof.
  intros H s. unfold call, bind, emit. destruct r as [a|x]; simpl in *.
  - by rewrite H.
  - by rewrite H.
Qed.

Lemma fail_stop_bind {A B} (m : M A) (k : A → M B) :
  fail_stop env m → (∀ a, fail_stop env (k a)) → fail_stop env (bind m k).
Proof.
  intros Hm Hk s. rewrite out_bind, res_bind. specialize (Hm s).
  destruct (res (m s)) as [a|e]; [|done].
  apply fail_stop_trace_app; [done | apply Hk].
Qed.

Lemma fail_stop_write file text : fail_stop env (write env file text).
Proof.
  apply fail_stop_bind; [by apply fail_stop_call | intros _].
  by apply fail_stop_silent.
Qed.

End FailStop.

Ltac fail_stop_step :=
  lazymatch goal with
  | |- fail_stop _ (call _ _) => apply fail_stop_call; reflexivity
  | |- fail_stop _ (bind _ _) => apply fail_stop_bind; [|intros ?]
  | |- fail_stop _ (emit _) => apply fail_stop_emit; reflexivity
  | |- fail_stop _ (write _ _ _) => apply fail_stop_write
  | |- fail_stop _ (lift _) => apply fail_stop_lift
  | |- fail_stop _ (ret _) => apply fail_stop_silent; reflexivity
  | |- fail_stop _ (raise _) => apply fail_stop_silent; reflexivity
  | |- fail_stop _ get_session => apply fail_stop_silent; reflexivity
  | |- fail_stop _ (set_session _) => apply fail_stop_silent; reflexivity
  | |- fail_stop _ (match ?x with _ => _ end) => destruct x
  end.

(** * Failures propagate *)

Section Propagation.

Variables (env : Env) (w : Widgets).

Lemma with_open_append_fail_stop file text :
  fail_stop env text → fail_stop env (with_open_append env file text).
Proof.
  intros H. unfold with_open_append.
  fail_stop_step; [fail_stop_step|].
  fail_stop_step; [exact H | fail_stop_step].
Qed.

Lemma load_model_fail_stop : fail_stop env (load_model env).
Proof.
  intros s. unfold load_model. destruct (model_cache s); [done|].
  refine (fail_stop_bind env _ _ _ _ s);
    [fail_stop_step | intros model; by apply fail_stop_silent].
Qed.

(** The steps above, and the lemmas of the functions the script calls. *)
Ltac fail_stop_script :=
  repeat
    lazymatch goal with
    | |- fail_stop _ (load_model _) => apply load_model_fail_stop
    | |- fail_stop _ (with_open_append _ _ _) => apply with_open_append_fail_stop
    | _ => fail_stop_step
    end.

Lemma classify_fail_stop img : fail_stop env (classify env img).
Proof.
  unfold classify, make_prediction, interpret_prediction, set_results,
    set_new_filename, set_img_byte_arr.
  fail_stop_script.
Qed.

Lemma classifier_page_fail_stop : fail_stop env (classifier_page env w).
Proof.
  unfold classifier_page, file_uploader, set_img.
  repeat
    lazymatch goal with
    | |- fail_stop _ (classify _ _) => apply classify_fail_stop
    | _ => fail_stop_step
    end.
Qed.

Lemma feedback_button_fail_stop label word :
  fail_stop env (feedback_button env w label word).
Proof. unfold feedback_button, button. fail_stop_script. Qed.

Lemma connect_page_fail_stop : fail_stop env (connect_page env w).
Proof.
  unfold connect_page, text_area, button.
  repeat
    lazymatch goal with
    | |- fail_stop _ (feedback_button _ _ _ _) => apply feedback_button_fail_stop
    | |- fail_stop _ (with_open_append _ _ _) => apply with_open_append_fail_stop
    | _ => fail_stop_step
    end.
Qed.

Lemma script_fail_stop : fail_stop env (script env w).
Proof.
  unfold script, sidebar_radio.
  repeat
    lazymatch goal with
    | |- fail_stop _ (classifier_page _ _) => apply classifier_page_fail_stop
    | |- fail_stop _ (connect_page _ _) => apply connect_page_fail_stop
    | _ => fail_stop_step
    end.
Qed.

End Propagation.

Lemma raised_Some {A} (r : result A) exn : raised r = Some exn → r = Raise exn.
Proof. destruct r; simpl; congruence. Qed.

(** C5. Whenever a library call of a run fails (decoding the image, loading
    the model, preprocessing, the forward pass, the attribution, encoding the
    image, opening a file, writing to it), the run ends there with that
    exception: no event follows the failing call, the exception is the result
    of the run, and no call before it had failed. *)
Theorem failures_propagate env w s pre e post exn :
  out (run env w s) = (pre ++ e :: post)%list →
  failure env e = Some exn →
  post = [] ∧ res (run env w s) = Raise exn ∧
  Forall (λ e', failure env e' = None) pre.
Proof.
  intros Hout He. pose proof (script_fail_stop env w s) as H.
  unfold run in *. rewrite Hout in H.
  destruct (fail_stop_trace_split _ _ _ _ _ _ H He) as (Hpost & Hres & Hpre).
  auto using raised_Some.
Qed.

Lemma failures_propagate_witness :
  ([] : list Event) = [] ∧
  res (run demo_env w_bad_upload initial_state)
  = Raise (LibraryError "UnidentifiedImageError") ∧
  Forall (λ e', failure demo_env e' = None)
    [st_sidebar_title "Navigation";
     st_sidebar_radio "Go to" ["Image Classifier"; "Connect to Us"];
     st_title "ResNet-50 Image Classifier";
     st_file_uploader "Upload Image:" ["png"; "jpg"; "jpeg"]].
Proof.
  apply (failures_propagate demo_env w_bad_upload initial_state _
           (call_Image_open notes_png) []).
  - vm_compute. reflexivity.
  - vm_compute. reflexivity.
Defined.

Example model_load_failure :
  res (run offline_env w_upload initial_state) = Raise (LibraryError "URLError") ∧
  last (out (run offline_env w_upload initial_state)) = Some call_resnet50 ∧
  model_cache (final (run offline_env w_upload initial_state)) = None.
Proof. split_and!; vm_compute; reflexivity. Qed.

Example file_open_failure :
  res (run readonly_env (w_comment "a") initial_state)
  = Raise (LibraryError "PermissionError") ∧
  last (out (run readonly_env (w_comment "a") initial_state))
  = Some (call_open "user_comments.txt" "a") ∧
  files (final (run readonly_env (w_comment "a") initial_state)) = ∅.
Proof. split_and!; vm_compute; reflexivity. Qed.

Example file_write_failure :
  res (run full_disk_env (w_comment "a") initial_state)
  = Raise (LibraryError "OSError: No space left") ∧
  last (out (run full_disk_env (w_comment "a") initial_state))
  = Some (file_write "user_comments.txt" ("2024-05-01 09:03:07.001250: a" +:+ nl)) ∧
  files (final (run full_disk_env (w_comment "a") initial_state)) = ∅.
Proof. split_and!; vm_compute; reflexivity. Qed.

(** * The two views *)

Lemma every_bind_det {A B} (P : Event → Prop) (m : M A) (k : A → M B) a :
  (∀ s, res (m s) = Ok a) → every P m → every P (k a) → every P (bind m k).
Proof.
  intros Hres Hm Hk s. rewrite out_bind, Hres.
  apply Forall_app. split; [apply Hm | apply Hk].
Qed.

Lemma page_of_cases w :
  page_of w = "Image Classifier" ∨ page_of w = "Connect to Us".
Proof.
  unfold page_of. destruct (radio_index w) as [|[|n]]; simpl; auto.
Qed.

Section Views.

Variables (env : Env) (w : Widgets).

Lemma load_model_every (P : Event → Prop) :
  P call_resnet50 → every P (load_model env).
Proof.
  intros H s. unfold load_model. destruct (model_cache s); [constructor|].
  revert s. apply every_bind; [by apply every_call | intros model s].
  constructor.
Qed.

Lemma classifier_page_no_file_event :
  every (λ e, is_file_event e = false) (classifier_page env w).
Proof.
  unfold classifier_page, file_uploader, classify, make_prediction,
    interpret_prediction, set_img, set_results, set_new_filename,
    set_img_byte_arr.
  repeat
    lazymatch goal with
    | |- every _ (load_model _) => apply load_model_every; reflexivity
    | _ => every_step
    end.
Qed.

Lemma with_open_append_every (P : Event → Prop) file text :
  P (call_open file "a") → (∀ t, P (file_write file t)) → every P text →
  every P (with_open_append env file text).
Proof.
  intros Hopen Hwrite Htext. unfold with_open_append.
  apply every_bind; [by apply every_call | intros _].
  apply every_bind; [done | intros t]. by apply every_write.
Qed.

Lemma connect_page_no_classifier_event :
  every (λ e, is_classifier_event e = false) (connect_page env w).
Proof.
  unfold connect_page, feedback_button, text_area, button.
  repeat
    lazymatch goal with
    | |- every _ (with_open_append _ _ _) =>
        apply with_open_append_every; [reflexivity | reflexivity |]
    | _ => every_step
    end.
Qed.

Lemma script_views :
  every (λ e, (is_classifier_event e = true → page_of w = "Image Classifier") ∧
              (is_file_event e = true → page_of w = "Connect to Us"))
    (script env w).
Proof.
  unfold script, sidebar_radio.
  apply every_bind; [by apply every_emit | intros _].
  apply (every_bind_det _ _ _ (page_of w)); [done | by apply every_emit |].
  destruct (page_of_cases w) as [-> | ->]; simpl.
  - eapply every_impl; [|apply classifier_page_no_file_event].
    simpl. intros e ->. done.
  - eapply every_impl; [|apply connect_page_no_classifier_event].
    simpl. intros e ->. done.
Qed.

End Views.

(** C8. The sidebar radio returns one of the two views.  In every run, an
    event of the classification (uploader, decoding, model, attribution,
    plots, encoding, download button) occurs only when "Image Classifier" is
    selected, an opening of or a write to a file only when "Connect to Us"
    is, and no run has both an event of the first kind and one of the
    second. *)
Theorem views_exclusive env w s :
  (page_of w = "Image Classifier" ∨ page_of w = "Connect to Us") ∧
  (∀ e, e ∈ out (run env w s) → is_classifier_event e = true →
        page_of w = "Image Classifier") ∧
  (∀ e, e ∈ out (run env w s) → is_file_event e = true →
        page_of w = "Connect to Us") ∧
  (∀ e1 e2, e1 ∈ out (run env w s) → e2 ∈ out (run env w s) →
            is_classifier_event e1 = true → is_file_event e2 = false).
Proof.
  pose proof (script_views env w s) as H. rewrite Forall_forall in H.
  unfold run. repeat split.
  - apply page_of_cases.
  - intros e He. by apply H.
  - intros e He. by apply H.
  - intros e1 e2 H1 H2 Hc.
    destruct (is_file_event e2) eqn:Hf; [|done].
    apply H in H1 as [H1 _]. apply H in H2 as [_ H2].
    rewrite (H1 Hc) in H2. by specialize (H2 Hf).
Qed.

(** * What a classification shows *)

(** Runs a script symbolically: the binds are unfolded from the left, and
    each call whose result is not known is split into its two outcomes. *)
Ltac exec_step :=
  match goal with
  | |- context [match ?x with _ => _ end] =>
      lazymatch x with
      | context [match _ with _ => _ end] => fail
      | _ => destruct x eqn:?
      end
  end.

Ltac exec_loop :=
  repeat (cbv beta iota zeta
              delta [bind after ret raise lift emit get_session set_session
                     append_to res final out app fst snd hd session_state files
                     model_cache ss_img ss_probs ss_idxs ss_feature_imp
                     ss_new_filename ss_img_byte_arr];
          try exec_step).

(** Lines 53-104, on an image. *)
Ltac exec_classify :=
  unfold classify, load_model, make_prediction, interpret_prediction,
    set_results, set_new_filename, set_img_byte_arr, call;
  exec_loop.

(** The rest of the script, with [classify] as one step. *)
Ltac exec_run :=
  unfold run, script, sidebar_radio, classifier_page, connect_page,
    file_uploader, feedback_button, with_open_append, write, button,
    text_area, set_img, call;
  exec_loop.

(** Splits [e ∈ [e1; ...; en]] into its [n] cases. *)
Ltac pick_event H :=
  repeat (apply elem_of_cons in H as [H|H]; [try discriminate H; try subst|]);
  try (by apply elem_of_nil in H).

(** Rewrites with what the execution found about the widgets and the
    library calls. *)
Ltac use_cases :=
  repeat match goal with
         | H : chosen_file _ = _ |- _ => rewrite H
         | H : accepts _ _ = _ |- _ => rewrite H
         | H : Image_open _ _ = _ |- _ => rewrite H
         | H : clicked _ _ = _ |- _ => rewrite H
         | H : open_append _ _ = _ |- _ => rewrite H
         | H : file_write_to _ _ _ = _ |- _ => rewrite H
         end.

(** Keeps the conclusion [G] of a goal [_ → G] out of the execution. *)
Ltac hide_conclusion :=
  match goal with |- _ → ?G => set (Concl := G) end.

Ltac show_conclusion :=
  match goal with Concl := _ |- _ => subst Concl end.

Lemma index_Ok {A} (l : list A) i a : Py.index l i = Ok a → l !! i = Some a.
Proof. unfold Py.index. destruct (l !! i); congruence. Qed.

Lemma fancy_index_head {A} (l : list A) idxs names i x :
  Py.fancy_index l idxs = Ok names → Py.index idxs 0 = Ok i →
  Py.index names 0 = Ok x → l !! i = Some x.
Proof.
  intros H Hi Hx. apply fancy_index_Forall2 in H.
  apply index_Ok in Hi, Hx.
  destruct (Forall2_lookup_l _ _ _ _ _ H Hi) as (y & Hy & Hl). congruence.
Qed.

Lemma predicts_intro env model input logits prob idxs :
  model input = Ok logits → top5 (softmax env logits) = Ok (prob, idxs) →
  predicts env model input (softmax env logits) prob idxs.
Proof.
  intros Hm Ht. exists logits. repeat split; [done|].
  intros s. by rewrite make_prediction_res, Hm.
Qed.

#[local] Hint Resolve index_Ok fancy_index_head predicts_intro : core.

(** The download button of a classification: which prediction, which name
    and which bytes. *)
Lemma classify_download env img s label data file_name mime :
  st_download_button label data file_name mime ∈ out (classify env img s) →
  ∃ model input probs prob idxs target category,
    prepared env s img model input ∧
    predicts env model input probs prob idxs ∧
    idxs !! 0 = Some target ∧
    categories env !! target = Some category ∧
    file_name = category +:+ "." +:+ lower (format img) ∧
    mime = "image/" +:+ lower (format img) ∧
    Image_save env img (upper (lower (format img))) = Ok data.
Proof.
  unfold prepared, current_model. exec_classify.
  all: intros Hev; pick_event Hev.
  all: injection Hev as -> -> -> ->.
  all: do 7 eexists; split_and!; eauto.
Qed.

(** The attribution call of a classification: the model and input are those
    of the prediction, the target is the first of the indices it returned. *)
Lemma classify_attribute env img s model input target :
  call_attribute model input target ∈ out (classify env img s) →
  ∃ probs prob idxs,
    prepared env s img model input ∧
    predicts env model input probs prob idxs ∧
    idxs !! 0 = Some target.
Proof.
  unfold prepared, current_model. exec_classify.
  all: intros Hev; pick_event Hev.
  all: injection Hev as -> -> ->.
  all: do 3 eexists; split_and!; eauto.
Qed.

(** An event of a run that is one of a classification is an event of
    [classify] on the classified image, in the "Image Classifier" view. *)
Lemma run_classify env w s e :
  e ∈ out (run env w s) → of_classify e = true →
  ∃ img s',
    classified_image env w s = Some img ∧
    model_cache s' = model_cache s ∧
    page_of w = "Image Classifier" ∧
    e ∈ out (classify env img s').
Proof.
  hide_conclusion. exec_run.
  all: intros Hev; show_conclusion; intros Hof.
  all: pick_event Hev; try discriminate Hof.
  all: unfold classified_image, accepted_upload, page_of.
  all: match goal with
       | H : classify _ ?img ?s' = _ |- _ =>
           exists img, s'; rewrite H; cbn [out model_cache session_state ss_img]
       end.
  all: use_cases; split_and!; try done.
  all: by apply String.eqb_eq.
Qed.

Lemma classify_only_of_classify env img :
  every (λ e, of_classify e = true ∨ e = st_columns) (classify env img).
Proof.
  unfold classify, make_prediction, interpret_prediction, set_results,
    set_new_filename, set_img_byte_arr.
  repeat
    lazymatch goal with
    | |- every _ (load_model _) => apply load_model_every; by left
    | |- every _ (call _ _) => apply every_call; by left
    | |- every _ (emit st_columns) => apply every_emit; by right
    | |- every _ (emit _) => apply every_emit; by left
    | _ => every_step
    end.
Qed.

Lemma prepared_cache env s s' img model input :
  model_cache s' = model_cache s →
  prepared env s' img model input → prepared env s img model input.
Proof. unfold prepared, current_model. by intros ->. Qed.

Lemma predicts_argmax env model input probs prob idxs target :
  predicts env model input probs prob idxs → idxs !! 0 = Some target →
  is_argmax probs target.
Proof.
  intros (logits & Hm & -> & Hres) Ht.
  specialize (Hres initial_state). rewrite make_prediction_res, Hm in Hres.
  eapply top5_head_max; eauto.
Qed.

(** Proves [e ∈ l] for a computed trace [l], [e] being its [k]-th event. *)
Ltac event_at k :=
  apply (list_elem_of_lookup_2 _ k); vm_compute; reflexivity.

(** * The attribution explains the top prediction *)

(** C6. Whenever a run computes an Integrated Gradients attribution, it does
    so on the model and the input tensor of the classified image, and with a
    target that is the first index [make_prediction] returned for them, which
    is the index of a largest softmax output (the top-1 category). *)
Theorem attribution_targets_top1 env w s model input target :
  call_attribute model input target ∈ out (run env w s) →
  ∃ img probs prob idxs,
    classified_image env w s = Some img ∧
    prepared env s img model input ∧
    predicts env model input probs prob idxs ∧
    idxs !! 0 = Some target ∧
    is_argmax probs target.
Proof.
  intros Hev.
  destruct (run_classify _ _ _ _ Hev eq_refl) as (img & s' & Himg & Hc & _ & Hin).
  destruct (classify_attribute _ _ _ _ _ _ Hin) as (probs & prob & idxs & Hp & Hpr & Ht).
  exists img, probs, prob, idxs.
  eauto 10 using prepared_cache, predicts_argmax.
Qed.

Lemma attribution_targets_top1_witness :
  ∃ img probs prob idxs,
    classified_image demo_env w_upload initial_state = Some img ∧
    prepared demo_env initial_state img demo_model [2; 10; 0; 4; 1; 3; 0]%Q ∧
    predicts demo_env demo_model [2; 10; 0; 4; 1; 3; 0]%Q probs prob idxs ∧
    idxs !! 0 = Some 1 ∧
    is_argmax probs 1.
Proof.
  apply (attribution_targets_top1 demo_env w_upload initial_state).
  event_at 8.
Defined.

(** * The download *)

Lemma upper_lower_char c : is_lower c = false → upper_char (lower_char c) = c.
Proof.
  destruct c as [[] [] [] [] [] [] [] []]; vm_compute; congruence.
Qed.

Lemma upper_lower s :
  all_chars (λ c, negb (is_lower c)) s = true → upper (lower s) = s.
Proof.
  induction s as [|c s IH]; simpl; [done|].
  intros [Hc Hs]%andb_prop. apply negb_true_iff in Hc.
  unfold upper, lower in *. simpl. by rewrite upper_lower_char, IH.
Qed.

Lemma download_named_parts env w s label data file_name mime :
  st_download_button label data file_name mime ∈ out (run env w s) →
  ∃ img, classified_image env w s = Some img ∧
         Image_save env img (upper (lower (format img))) = Ok data.
Proof.
  intros Hev.
  destruct (run_classify _ _ _ _ Hev eq_refl) as (img & s' & Himg & _ & _ & Hin).
  destruct (classify_download _ _ _ _ _ _ _ Hin)
    as (? & ? & ? & ? & ? & ? & ? & _ & _ & _ & _ & _ & _ & Hsave).
  eauto.
Qed.

(** C2. Whenever a run offers a download, its file name is the category at
    the first index [make_prediction] returned for the classified image (the
    index of a largest softmax output), a dot, and the lower-cased format of
    that image; its data is what [img.save] returns for that image in the
    upper-cased form of this extension, which is the image's own format when
    that has no lower-case letter. *)
Theorem download_named env w s label data file_name mime :
  st_download_button label data file_name mime ∈ out (run env w s) →
  ∃ img model input probs prob idxs target category,
    classified_image env w s = Some img ∧
    prepared env s img model input ∧
    predicts env model input probs prob idxs ∧
    idxs !! 0 = Some target ∧
    is_argmax probs target ∧
    categories env !! target = Some category ∧
    file_name = category +:+ "." +:+ lower (format img) ∧
    Image_save env img (upper (lower (format img))) = Ok data ∧
    (all_chars (λ c, negb (is_lower c)) (format img) = true →
     upper (lower (format img)) = format img).
Proof.
  intros Hev.
  destruct (run_classify _ _ _ _ Hev eq_refl) as (img & s' & Himg & Hc & _ & Hin).
  destruct (classify_download _ _ _ _ _ _ _ Hin)
    as (model & input & probs & prob & idxs & target & category
        & Hp & Hpr & Ht & Hcat & Hname & _ & Hsave).
  exists img, model, input, probs, prob, idxs, target, category.
  split_and!; eauto using prepared_cache, predicts_argmax, upper_lower.
Qed.

Lemma download_named_witness :
  ∃ img model input probs prob idxs target category,
    classified_image demo_env w_upload initial_state = Some img ∧
    prepared demo_env initial_state img model input ∧
    predicts demo_env model input probs prob idxs ∧
    idxs !! 0 = Some target ∧
    is_argmax probs target ∧
    categories demo_env !! target = Some category ∧
    "goldfish.jpeg" = category +:+ "." +:+ lower (format img) ∧
    Image_save demo_env img (upper (lower (format img)))
    = Ok [xff; xd8; x02; x0a; x00; x04; x01; x03; x00; xd9] ∧
    (all_chars (λ c, negb (is_lower c)) (format img) = true →
     upper (lower (format img)) = format img).
Proof.
  apply (download_named demo_env w_upload initial_state
           "Download Renamed Image" _ _ "image/jpeg").
  event_at 14.
Defined.

(** C4, as the code has it.  The data of the download is what [img.save]
    returns for the decoded upload; it is the uploaded bytes exactly when
    that encoding gives them back. *)
Theorem download_is_reencoding env w s u img label bytes file_name mime :
  accepted_upload w = Some u → Image_open env u = Ok img →
  st_download_button label bytes file_name mime ∈ out (run env w s) →
  Image_save env img (upper (lower (format img))) = Ok bytes ∧
  (bytes = data u ↔
   Image_save env img (upper (lower (format img))) = Ok (data u)).
Proof.
  intros Hu Himg Hev.
  destruct (download_named_parts _ _ _ _ _ _ _ Hev) as (img' & Hc & Hsave).
  unfold classified_image in Hc. rewrite Hu, Himg in Hc.
  injection Hc as <-. split; [done|].
  rewrite Hsave. split; [by intros -> | congruence].
Qed.

Lemma download_is_reencoding_witness :
  Image_save demo_env cat_img (upper (lower (format cat_img)))
  = Ok [xff; xd8; x02; x0a; x00; x04; x01; x03; x00; xd9] ∧
  ([xff; xd8; x02; x0a; x00; x04; x01; x03; x00; xd9] = data cat_jpg ↔
   Image_save demo_env cat_img (upper (lower (format cat_img)))
   = Ok (data cat_jpg)).
Proof.
  apply (download_is_reencoding demo_env w_upload initial_state cat_jpg cat_img
           "Download Renamed Image" _ "goldfish.jpeg" "image/jpeg").
  - reflexivity.
  - reflexivity.
  - event_at 14.
Defined.

(** An upload that decodes as a JPEG image and whose download has other
    bytes: the byte after the end marker is not in the encoding. *)
Lemma download_differs_from_upload :
  accepted_upload w_upload = Some cat_jpg ∧
  Image_open demo_env cat_jpg = Ok cat_img ∧
  format cat_img = "JPEG" ∧
  st_download_button "Download Renamed Image"
    [xff; xd8; x02; x0a; x00; x04; x01; x03; x00; xd9]
    "goldfish.jpeg" "image/jpeg"
    ∈ out (run demo_env w_upload initial_state) ∧
  [xff; xd8; x02; x0a; x00; x04; x01; x03; x00; xd9] ≠ data cat_jpg.
Proof.
  split_and!; try reflexivity.
  - event_at 14.
  - discriminate.
Qed.

(** * The uploader *)

(** An event that is none of [classify] is not in its trace. *)
Ltac not_of_classify :=
  lazymatch goal with
  | Hc : classify ?env ?img ?s' = _, Hev : ?e ∈ _ |- _ =>
      exfalso;
      let Hall := fresh in
      pose proof (classify_only_of_classify env img s') as Hall;
      rewrite Hc in Hall; cbn [out] in Hall;
      rewrite Forall_forall in Hall;
      destruct (Hall _ Hev) as [?|?]; discriminate
  end.

Lemma accepts_extensions f :
  accepts ["png"; "jpg"; "jpeg"] f = has_image_extension f.
Proof.
  unfold accepts, has_image_extension. simpl existsb.
  by rewrite orb_false_r, orb_assoc.
Qed.

Lemma run_Image_open env w s u :
  call_Image_open u ∈ out (run env w s) →
  page_of w = "Image Classifier" ∧ accepted_upload w = Some u.
Proof.
  hide_conclusion. exec_run.
  all: intros Hev; show_conclusion; pick_event Hev; try not_of_classify.
  all: injection Hev as ->; unfold page_of, accepted_upload; use_cases.
  all: split; [by apply String.eqb_eq | done].
Qed.

Lemma run_file_uploader env w s label type :
  st_file_uploader label type ∈ out (run env w s) →
  type = ["png"; "jpg"; "jpeg"].
Proof.
  hide_conclusion. exec_run.
  all: intros Hev; show_conclusion; pick_event Hev; try not_of_classify.
  all: by injection Hev as -> ->.
Qed.

(** A case of the execution that contradicts what is known of the page. *)
Ltac wrong_page Hp :=
  match goal with
  | H : (_ =? _)%string = _ |- _ => rewrite Hp in H; discriminate H
  end.

(** Finds an event in an explicit trace. *)
Ltac find_event :=
  solve [repeat first [apply list_elem_of_here | apply list_elem_of_further]].

Lemma Image_open_called env w s u :
  page_of w = "Image Classifier" → accepted_upload w = Some u →
  call_Image_open u ∈ out (run env w s).
Proof.
  unfold page_of, accepted_upload. exec_run.
  all: intros Hp Hu; try discriminate Hu; try wrong_page Hp.
  all: injection Hu as ->; find_event.
Qed.

Lemma accepted_upload_iff w u :
  accepted_upload w = Some u ↔
  chosen_file w = Some u ∧ has_image_extension u = true.
Proof.
  unfold accepted_upload. destruct (chosen_file w) as [f|].
  - rewrite accepts_extensions. destruct (has_image_extension f) eqn:E.
    + split; [by intros [= ->] | by intros [[= ->] _]].
    + split; [done | intros [[= ->] H]; congruence].
  - split; [done | by intros [? _]].
Qed.

(** C7. The uploader is created with the type list [png, jpg, jpeg] and no
    other; a file the user chose is handed to the script (which then opens
    it as an image) exactly when the "Image Classifier" view is shown and its
    name ends, in whatever case, with [.png], [.jpg] or [.jpeg]. *)
Theorem uploader_accepts env w s u :
  (∀ label type, st_file_uploader label type ∈ out (run env w s) →
                 type = ["png"; "jpg"; "jpeg"]) ∧
  (call_Image_open u ∈ out (run env w s) ↔
   page_of w = "Image Classifier" ∧ chosen_file w = Some u ∧
   has_image_extension u = true).
Proof.
  split; [intros label type; apply run_file_uploader|].
  rewrite <- accepted_upload_iff. split.
  - apply run_Image_open.
  - intros [Hp Hu]. by apply Image_open_called.
Qed.

Example gif_named_png_accepted :
  has_image_extension (mkUpload "Animation.PNG" [x47; x49; x46]) = true.
Proof. reflexivity. Qed.

Example gif_rejected :
  accepted_upload (mkWidgets 0 (Some (mkUpload "animation.gif" [x47; x49; x46]))
                     nothing_clicked "") = None.
Proof. reflexivity. Qed.

(** * What goes to the two files *)

Lemma run_file_write env w s file text :
  file_write file text ∈ out (run env w s) →
  page_of w = "Connect to Us" ∧
  ((file = "user_comments.txt" ∧ clicked w "Submit Comment" = true ∧
    text = comment_text env w) ∨
   (file = "feedback.txt" ∧
    ∃ word new_filename,
      (word = "Like" ∨ word = "Dislike") ∧
      ss_new_filename (session_state s) = Some new_filename ∧
      text = feedback_text word new_filename)).
Proof.
  hide_conclusion. exec_run.
  all: intros Hev; show_conclusion; pick_event Hev; try not_of_classify.
  all: injection Hev as -> ->; subst; unfold page_of; cbn [session_state ss_new_filename].
  all: split; [by apply String.eqb_eq|].
  all: first [ left; split_and!; [reflexivity | reflexivity | reflexivity]
             | right; split; [reflexivity|];
               match goal with
               | |- ∃ word new_filename,
                      _ ∧ Some ?f = _ ∧ ?w +:+ _ = _ => exists w, f
               end;
               split_and!; auto ].
Qed.

(** ** The timestamp of a comment *)

Lemma zfill2_digits n : (n < 100)%N → two_digits (zfill 2 n) = true.
Proof.
  intros Hn.
  assert (H : forallb (λ k, two_digits (zfill 2 (N.of_nat k))) (seq 0 100) = true)
    by (vm_compute; reflexivity).
  rewrite forallb_forall in H. specialize (H (N.to_nat n)).
  rewrite N2Nat.id in H. apply H, in_seq. lia.
Qed.

Lemma zfill4_digits n : (n ≤ 9999)%N → four_digits (zfill 4 n) = true.
Proof.
  intros Hn.
  assert (H : forallb (λ k, four_digits (zfill 4 (N.of_nat k))) (seq 0 (100 * 100)) = true)
    by (vm_compute; reflexivity).
  rewrite forallb_forall in H. specialize (H (N.to_nat n)).
  rewrite N2Nat.id in H. apply H, in_seq. lia.
Qed.

Lemma two_digits_inv s :
  two_digits s = true →
  ∃ a b, s = String a (String b "") ∧ is_digit a = true ∧ is_digit b = true.
Proof.
  destruct s as [|a [|b [|]]]; simpl; try done.
  intros [Ha Hb]%andb_prop. eauto.
Qed.

Lemma four_digits_inv s :
  four_digits s = true →
  ∃ a b c d, s = String a (String b (String c (String d ""))) ∧
             is_digit a = true ∧ is_digit b = true ∧
             is_digit c = true ∧ is_digit d = true.
Proof.
  destruct s as [|a [|b s]]; simpl; try done.
  intros [[Ha Hb]%andb_prop (c & d & -> & Hc & Hd)%two_digits_inv]%andb_prop.
  eauto 10.
Qed.

Lemma append_cons a s t : String a s +:+ t = String a (s +:+ t).
Proof. reflexivity. Qed.

Lemma append_nil t : "" +:+ t = t.
Proof. reflexivity. Qed.

Lemma has_timestamp_prefix s :
  starts_with_pattern timestamp_pattern s = true → has_timestamp s = true.
Proof.
  intros H. destruct s as [|c s]; [discriminate H|].
  change (has_timestamp (String c s))
    with (starts_with_pattern timestamp_pattern (String c s) || has_timestamp s).
  by rewrite H.
Qed.

Lemma datetime_str_has_timestamp d rest :
  valid_datetime d → has_timestamp (datetime_str d +:+ rest) = true.
Proof.
  intros (Hy & Hm & Hd & Hh & Hmi & Hs & _).
  destruct (four_digits_inv _ (zfill4_digits (year d) ltac:(lia)))
    as (y1 & y2 & y3 & y4 & Ey & ? & ? & ? & ?).
  destruct (two_digits_inv _ (zfill2_digits (month d) ltac:(lia)))
    as (m1 & m2 & Em & ? & ?).
  destruct (two_digits_inv _ (zfill2_digits (day d) ltac:(lia)))
    as (d1 & d2 & Ed & ? & ?).
  destruct (two_digits_inv _ (zfill2_digits (hour d) ltac:(lia)))
    as (h1 & h2 & Eh & ? & ?).
  destruct (two_digits_inv _ (zfill2_digits (minute d) ltac:(lia)))
    as (i1 & i2 & Ei & ? & ?).
  destruct (two_digits_inv _ (zfill2_digits (second d) ltac:(lia)))
    as (s1 & s2 & Es & ? & ?).
  apply has_timestamp_prefix. unfold datetime_str.
  rewrite Ey, Em, Ed, Eh, Ei, Es. unfold timestamp_pattern.
  repeat (rewrite append_cons || rewrite append_nil).
  cbn -[is_digit].
  repeat match goal with H : is_digit _ = true |- _ => rewrite H; clear H end.
  reflexivity.
Qed.

(** C3, as the code has it.  A text written to [user_comments.txt] is
    [str(datetime.now())], a colon, the comment and a newline, and so
    contains a timestamp.  A text written to [feedback.txt] is the word
    [Like] or [Dislike], [ for ], the file name kept in the session state and
    a newline: the clock is not read for it. *)
Theorem written_lines env w s file text :
  file_write file text ∈ out (run env w s) →
  valid_datetime (datetime_now env) →
  (file = "user_comments.txt" ∧
   text = datetime_str (datetime_now env) +:+ ": " +:+ typed_text w +:+ nl ∧
   has_timestamp text = true) ∨
  (file = "feedback.txt" ∧
   ∃ word new_filename,
     (word = "Like" ∨ word = "Dislike") ∧
     ss_new_filename (session_state s) = Some new_filename ∧
     text = word +:+ " for " +:+ new_filename +:+ nl).
Proof.
  intros Hev Hnow.
  destruct (run_file_write _ _ _ _ _ Hev) as [_ [(-> & _ & ->) | (-> & H)]].
  - left. split_and!; [done | done |].
    by apply datetime_str_has_timestamp.
  - by right.
Qed.

Lemma demo_now_valid : valid_datetime (datetime_now demo_env).
Proof. unfold valid_datetime. simpl. lia. Defined.

Lemma written_lines_witness :
  ("user_comments.txt" = "user_comments.txt" ∧
   "2024-05-01 09:03:07.001250: Nice" +:+ nl
   = datetime_str (datetime_now demo_env) +:+ ": "
     +:+ typed_text (w_comment "Nice") +:+ nl ∧
   has_timestamp ("2024-05-01 09:03:07.001250: Nice" +:+ nl) = true) ∨
  ("user_comments.txt" = "feedback.txt" ∧
   ∃ word new_filename,
     (word = "Like" ∨ word = "Dislike") ∧
     ss_new_filename (session_state after_upload) = Some new_filename ∧
     "2024-05-01 09:03:07.001250: Nice" +:+ nl
     = word +:+ " for " +:+ new_filename +:+ nl).
Proof.
  apply (written_lines demo_env (w_comment "Nice") after_upload).
  - event_at 12.
  - apply demo_now_valid.
Defined.

(** The line a Like appends after [cat.jpg] was classified has no
    timestamp. *)
Lemma feedback_line_without_timestamp :
  file_write "feedback.txt" ("Like for goldfish.jpeg" +:+ nl)
    ∈ out (run demo_env w_like after_upload) ∧
  valid_datetime (datetime_now demo_env) ∧
  has_timestamp ("Like for goldfish.jpeg" +:+ nl) = false.
Proof.
  split_and!.
  - event_at 9.
  - apply demo_now_valid.
  - reflexivity.
Qed.

(** * Feedback needs a classified image *)

Ltac find_event_in H :=
  solve [repeat first [exact H | apply list_elem_of_here
                      | apply list_elem_of_further]].

Lemma run_feedback_event env w s e :
  e ∈ out (run env w s) → is_feedback_event e = true →
  page_of w = "Connect to Us" ∧
  ∃ new_filename, ss_new_filename (session_state s) = Some new_filename.
Proof.
  hide_conclusion. exec_run.
  all: intros Hev; show_conclusion; intros Hfb.
  all: pick_event Hev; try discriminate Hfb.
  all: try (lazymatch goal with
            | Hc : classify ?env ?img ?s' = _, Hev : ?e ∈ _ |- _ =>
                exfalso;
                let Hall := fresh in
                pose proof (classify_only_of_classify env img s') as Hall;
                rewrite Hc in Hall; cbn [out] in Hall;
                rewrite Forall_forall in Hall;
                destruct (Hall _ Hev) as [?|?]; destruct e; discriminate
            end).
  all: subst; unfold page_of; cbn [session_state ss_new_filename].
  all: split; [by apply String.eqb_eq | eauto].
Qed.

Lemma classify_new_filename env img s r f o nf :
  classify env img s = mkOutcome r f o →
  ss_new_filename (session_state f) = Some nf →
  ss_new_filename (session_state s) = Some nf ∨
  ∃ fmt, call_save img fmt ∈ o.
Proof.
  hide_conclusion. exec_classify.
  all: intros [= <- <- <-]; show_conclusion.
  all: cbn [session_state ss_new_filename]; intros Hnf.
  all: first [by left | right; eexists; find_event].
Qed.

Lemma run_new_filename env w s r f o nf :
  run env w s = mkOutcome r f o →
  ss_new_filename (session_state f) = Some nf →
  ss_new_filename (session_state s) = Some nf ∨
  ∃ img fmt, call_save img fmt ∈ o.
Proof.
  hide_conclusion. exec_run.
  all: intros [= <- <- <-]; show_conclusion.
  all: cbn [session_state ss_new_filename]; intros Hnf.
  all: try (by left).
  all: match goal with
       | Hc : classify _ _ _ = _ |- _ =>
           destruct (classify_new_filename _ _ _ _ _ _ _ Hc Hnf) as [Hs | [fmt Hs]];
           [by left | right; eexists _, fmt; find_event_in Hs]
       end.
Qed.

Lemma names_image_page env w s :
  names_image env w s → page_of w = "Image Classifier".
Proof.
  intros (img & fmt & Hev).
  by destruct (run_classify _ _ _ _ Hev eq_refl) as (_ & _ & _ & _ & Hp & _).
Qed.

(** The file name in the session state was put there by a run of the
    session that named a classified image. *)
Lemma session_new_filename runs s nf :
  ss_new_filename (session_state (session runs s)) = Some nf →
  (∃ nf0, ss_new_filename (session_state s) = Some nf0) ∨
  ∃ pre env w post,
    runs = (pre ++ (env, w) :: post)%list ∧ names_image env w (session pre s).
Proof.
  revert s nf. induction runs as [|[env w] runs IH]; intros s nf H; simpl in H.
  - left. eauto.
  - destruct (IH _ _ H) as [[nf0 H0] | (pre & env' & w' & post & -> & Hn)].
    + destruct (run env w s) as [r f o] eqn:Hrun. simpl in H0.
      destruct (run_new_filename _ _ _ _ _ _ _ Hrun H0) as [Hs | (img & fmt & Hs)].
      * left. eauto.
      * right. exists [], env, w, runs. split; [done|].
        exists img, fmt. simpl. by rewrite Hrun.
    + right. by exists ((env, w) :: pre), env', w', post.
Qed.

Lemma no_feedback_without_filename env w s :
  ss_new_filename (session_state s) = None →
  Forall (λ e, is_feedback_event e = false) (out (run env w s)).
Proof.
  intros Hnone. apply Forall_forall. intros e He.
  destruct (is_feedback_event e) eqn:Hfb; [|done].
  destruct (run_feedback_event _ _ _ _ He Hfb) as (_ & nf & Hnf). congruence.
Qed.

(** C9. In a session that starts with an empty session state, a run renders
    the Like or the Dislike button, opens [feedback.txt] or writes to it only
    if [new_filename] is in the session state it starts from, and then an
    earlier run of the session, on the "Image Classifier" view, classified an
    image and named it. *)
Theorem feedback_needs_classification runs env w e :
  e ∈ out (run env w (session runs initial_state)) →
  is_feedback_event e = true →
  (∃ new_filename,
     ss_new_filename (session_state (session runs initial_state))
     = Some new_filename) ∧
  ∃ pre env' w' post,
    runs = (pre ++ (env', w') :: post)%list ∧
    page_of w' = "Image Classifier" ∧
    names_image env' w' (session pre initial_state).
Proof.
  intros He Hfb.
  destruct (run_feedback_event _ _ _ _ He Hfb) as (_ & nf & Hnf).
  split; [eauto|].
  destruct (session_new_filename _ _ _ Hnf)
    as [[nf0 H0] | (pre & env' & w' & post & -> & Hn)]; [done|].
  exists pre, env', w', post. eauto using names_image_page.
Qed.

Lemma feedback_needs_classification_witness :
  (∃ new_filename,
     ss_new_filename
       (session_state (session [(demo_env, w_upload)] initial_state))
     = Some new_filename) ∧
  ∃ pre env' w' post,
    [(demo_env, w_upload)] = (pre ++ (env', w') :: post)%list ∧
    page_of w' = "Image Classifier" ∧
    names_image env' w' (session pre initial_state).
Proof.
  apply (feedback_needs_classification [(demo_env, w_upload)] demo_env w_like
           (file_write "feedback.txt" ("Like for goldfish.jpeg" +:+ nl))).
  - event_at 9.
  - reflexivity.
Defined.

Example no_feedback_in_a_new_session :
  out (run demo_env w_like initial_state)
  = [st_sidebar_title "Navigation";
     st_sidebar_radio "Go to" ["Image Classifier"; "Connect to Us"];
     st_title "Connect to Us"; st_write "We'd love to hear from you!";
     st_subheader "Feedback"; st_write "Did you find the output useful?";
     st_columns; st_text_area "Leave your comment here:";
     st_button "Submit Comment"].
Proof. vm_compute. reflexivity. Qed.

(** * Submitting a comment *)

Lemma count_char_app c s t :
  count_char c (s +:+ t) = count_char c s + count_char c t.
Proof.
  induction s as [|a s IH]; [done|].
  rewrite append_cons. simpl. rewrite IH. lia.
Qed.

Lemma string_of_uint_one_line d :
  count_lines (NilEmpty.string_of_uint d) = 0.
Proof. unfold count_lines. induction d; simpl; auto. Qed.

Lemma str_N_one_line n : count_lines (str_N n) = 0.
Proof.
  unfold str_N, NilZero.string_of_uint.
  destruct (N.to_uint n) eqn:E; try apply string_of_uint_one_line. done.
Qed.

Lemma zfill_one_line k n : count_lines (zfill k n) = 0.
Proof.
  unfold zfill, count_lines. rewrite count_char_app.
  fold (count_lines (str_N n)). rewrite str_N_one_line.
  induction (k - String.length (str_N n)) as [|j IH]; simpl; auto.
Qed.

Lemma datetime_str_one_line d : count_lines (datetime_str d) = 0.
Proof.
  unfold datetime_str.
  destruct (microsecond d =? 0)%N; unfold count_lines;
    rewrite !count_char_app;
    repeat match goal with
           | |- context [count_char _ (zfill ?k ?n)] =>
               change (count_char (ascii_of_nat 10) (zfill k n))
                 with (count_lines (zfill k n));
               rewrite (zfill_one_line k n)
           end;
    reflexivity.
Qed.

Lemma comment_text_lines env w :
  count_lines (comment_text env w) = 1 + count_lines (typed_text w).
Proof.
  unfold comment_text, count_lines. rewrite !count_char_app.
  fold (count_lines (datetime_str (datetime_now env))).
  rewrite datetime_str_one_line. simpl. lia.
Qed.

Lemma run_submit env w s r f o :
  run env w s = mkOutcome r f o →
  page_of w = "Connect to Us" → clicked w "Submit Comment" = true →
  (∀ file, open_append env file = Ok tt) →
  (∀ file text, file_write_to env file text = Ok tt) →
  r = Ok tt ∧
  texts_written "user_comments.txt" o = [comment_text env w] ∧
  files f !! "user_comments.txt"
  = Some (default "" (files s !! "user_comments.txt") +:+ comment_text env w).
Proof.
  unfold page_of. hide_conclusion. exec_run.
  all: intros [= <- <- <-]; show_conclusion; intros Hp Hc Ho Hw.
  all: try wrong_page Hp; try congruence.
  all: try match goal with
           | H : open_append _ _ = Raise _ |- _ => rewrite Ho in H; discriminate H
           | H : file_write_to _ _ _ = Raise _ |- _ =>
               rewrite Hw in H; discriminate H
           end.
  all: subst; cbn [files]; split_and!; [reflexivity | reflexivity |].
  all: by simplify_map_eq.
Qed.

(** C10, as the code has it.  On the "Connect to Us" view, when the files
    can be opened and written, pressing Submit Comment makes the run end
    normally with exactly one write to [user_comments.txt], of the timestamp, a colon, the
    comment and a newline, appended to what the file held; no comment is
    refused, the empty one included, and the text written has one line more
    than the comment has line breaks. *)
Theorem comment_written env w s :
  page_of w = "Connect to Us" → clicked w "Submit Comment" = true →
  (∀ file, open_append env file = Ok tt) →
  (∀ file text, file_write_to env file text = Ok tt) →
  res (run env w s) = Ok tt ∧
  texts_written "user_comments.txt" (out (run env w s)) = [comment_text env w] ∧
  files (final (run env w s)) !! "user_comments.txt"
  = Some (default "" (files s !! "user_comments.txt") +:+ comment_text env w) ∧
  count_lines (comment_text env w) = 1 + count_lines (typed_text w).
Proof.
  intros Hp Hc Ho Hw. destruct (run env w s) as [r f o] eqn:Hrun.
  destruct (run_submit _ _ _ _ _ _ Hrun Hp Hc Ho Hw) as (Hr & Ht & Hf).
  simpl. auto using comment_text_lines.
Qed.

Lemma comment_written_witness :
  res (run demo_env (w_comment "") initial_state) = Ok tt ∧
  texts_written "user_comments.txt" (out (run demo_env (w_comment "") initial_state))
  = [comment_text demo_env (w_comment "")] ∧
  files (final (run demo_env (w_comment "") initial_state)) !! "user_comments.txt"
  = Some (default "" (files initial_state !! "user_comments.txt")
          +:+ comment_text demo_env (w_comment "")) ∧
  count_lines (comment_text demo_env (w_comment ""))
  = 1 + count_lines (typed_text (w_comment "")).
Proof.
  apply (comment_written demo_env (w_comment "") initial_state).
  - reflexivity.
  - reflexivity.
  - intros file. reflexivity.
  - intros file text. reflexivity.
Defined.

(** A comment of two lines: one write, two lines. *)
Lemma two_line_comment :
  page_of (w_comment ("a" +:+ nl +:+ "b")) = "Connect to Us" ∧
  clicked (w_comment ("a" +:+ nl +:+ "b")) "Submit Comment" = true ∧
  texts_written "user_comments.txt"
    (out (run demo_env (w_comment ("a" +:+ nl +:+ "b")) initial_state))
  = ["2024-05-01 09:03:07.001250: a" +:+ nl +:+ "b" +:+ nl] ∧
  count_lines ("2024-05-01 09:03:07.001250: a" +:+ nl +:+ "b" +:+ nl) = 2.
Proof. split_and!; vm_compute; reflexivity. Qed.

(** * Further properties of the script *)

(** Projections of an explicit state or outcome. *)
Ltac simpl_state :=
  cbn [res final out session_state files model_cache ss_img ss_probs ss_idxs
       ss_feature_imp ss_new_filename ss_img_byte_arr] in *.

(** * The model cache *)

Lemma classify_cached env img s model r f o :
  classify env img s = mkOutcome r f o →
  model_cache s = Some model →
  (call_resnet50 ∉ o) ∧ model_cache f = Some model.
Proof.
  hide_conclusion. exec_classify.
  all: intros [= <- <- <-]; show_conclusion; intros Hc; try discriminate Hc.
  all: simpl_state; split; [|done].
  all: intros Hev; pick_event Hev.
Qed.

(** X1. Once the model is cached, a run does not load it again and leaves
    the cache as it is. *)
Theorem cached_model_not_reloaded env w s model :
  model_cache s = Some model →
  (call_resnet50 ∉ out (run env w s)) ∧
  model_cache (final (run env w s)) = Some model.
Proof.
  destruct (run env w s) as [r f o] eqn:Hrun. revert Hrun.
  hide_conclusion. exec_run.
  all: intros [= <- <- <-]; show_conclusion; intros Hc; simpl_state.
  all: try match goal with
           | H : classify _ _ _ = _ |- _ =>
               destruct (classify_cached _ _ _ model _ _ _ H Hc) as [Hno Hf]
           end.
  all: split; [|done].
  all: intros Hev; pick_event Hev; done.
Qed.

Lemma cached_model_not_reloaded_witness :
  (call_resnet50 ∉ out (run demo_env w_upload warm_state)) ∧
  model_cache (final (run demo_env w_upload warm_state)) = Some demo_model.
Proof.
  apply (cached_model_not_reloaded demo_env w_upload warm_state demo_model).
  reflexivity.
Defined.

(** * What each view leaves alone *)

Lemma classify_files env img s r f o :
  classify env img s = mkOutcome r f o → files f = files s.
Proof.
  hide_conclusion. exec_classify.
  all: intros [= <- <- <-]; show_conclusion; subst; reflexivity.
Qed.

(** X2. A run on the "Connect to Us" view leaves the session state and the
    model cache as they are, and a run on the "Image Classifier" view leaves
    the files as they are. *)
Theorem views_frame env w s :
  (page_of w = "Connect to Us" →
   session_state (final (run env w s)) = session_state s ∧
   model_cache (final (run env w s)) = model_cache s) ∧
  (page_of w = "Image Classifier" →
   files (final (run env w s)) = files s).
Proof.
  destruct (run env w s) as [r f o] eqn:Hrun. revert Hrun.
  unfold page_of. hide_conclusion. exec_run.
  all: intros [= <- <- <-]; show_conclusion.
  all: split; intros Hp; try wrong_page Hp; subst; simpl_state; try done.
  all: match goal with
       | H : classify _ _ _ = _ |- _ => by rewrite (classify_files _ _ _ _ _ _ H)
       end.
Qed.

(** * An upload that does not decode *)

(** X3. When the uploaded file does not decode, the run ends with the
    exception of [Image.open] and leaves the whole state as it was: the
    image of an earlier upload stays in the session state. *)
Theorem bad_upload_keeps_state env w s u e :
  page_of w = "Image Classifier" → accepted_upload w = Some u →
  Image_open env u = Raise e →
  res (run env w s) = Raise e ∧ final (run env w s) = s.
Proof.
  destruct (run env w s) as [r f o] eqn:Hrun. revert Hrun.
  unfold page_of, accepted_upload. hide_conclusion. exec_run.
  all: intros [= <- <- <-]; show_conclusion; intros Hp Hu Ho.
  all: try wrong_page Hp; try discriminate Hu.
  all: injection Hu as ->; subst; simpl_state; split; congruence.
Qed.

Lemma bad_upload_keeps_state_witness :
  res (run demo_env w_bad_upload after_upload)
  = Raise (LibraryError "UnidentifiedImageError") ∧
  final (run demo_env w_bad_upload after_upload) = after_upload.
Proof.
  apply (bad_upload_keeps_state demo_env w_bad_upload after_upload notes_png).
  - reflexivity.
  - reflexivity.
  - reflexivity.
Defined.

(** * The feedback buttons *)

Lemma like_button_rendered env w s nf :
  page_of w = "Connect to Us" →
  ss_new_filename (session_state s) = Some nf →
  st_button "👍 Like" ∈ out (run env w s).
Proof.
  unfold page_of. exec_run.
  all: intros Hp Hnf; try wrong_page Hp; try discriminate Hnf.
  all: find_event.
Qed.

(** X4. On the "Connect to Us" view the Like button is rendered exactly
    when [new_filename] is in the session state. *)
Theorem like_button_iff_filename env w s :
  page_of w = "Connect to Us" →
  (st_button "👍 Like" ∈ out (run env w s) ↔
   is_Some (ss_new_filename (session_state s))).
Proof.
  intros Hp. split.
  - intros Hev. by destruct (run_feedback_event _ _ _ _ Hev eq_refl) as [_ H].
  - intros [nf Hnf]. by eapply like_button_rendered.
Qed.

Lemma like_button_iff_filename_witness :
  st_button "👍 Like" ∈ out (run demo_env w_like after_upload) ↔
  is_Some (ss_new_filename (session_state after_upload)).
Proof.
  apply (like_button_iff_filename demo_env w_like after_upload). reflexivity.
Defined.

(** * The two files only grow *)

Lemma append_empty_r s : s +:+ "" = s.
Proof. induction s as [|a s IH]; [done|]. by rewrite append_cons, IH. Qed.

Lemma append_assoc_r s t u : (s +:+ t) +:+ u = s +:+ (t +:+ u).
Proof. induction s as [|a s IH]; [done|]. by rewrite !append_cons, IH. Qed.

(** What [append_to] does to the content of any file. *)
Lemma lookup_append_to (fs : gmap string string) k text file :
  default "" (<[k := default "" (fs !! k) +:+ text]> fs !! file)
  = default "" (fs !! file) +:+ (if decide (file = k) then text else "").
Proof.
  destruct (decide (file = k)) as [->|Hne].
  - by rewrite lookup_insert_eq.
  - rewrite lookup_insert_ne by done. by rewrite append_empty_r.
Qed.

Lemma run_append_only env w s file :
  ∃ suffix,
    content (final (run env w s)) file = content s file +:+ suffix ∧
    (file ≠ "feedback.txt" → file ≠ "user_comments.txt" → suffix = "").
Proof.
  destruct (run env w s) as [r f o] eqn:Hrun. revert Hrun.
  unfold content. hide_conclusion. exec_run.
  all: intros [= <- <- <-]; show_conclusion; subst; simpl_state.
  all: try match goal with
           | H : classify _ _ _ = _ |- _ =>
               rewrite (classify_files _ _ _ _ _ _ H); simpl_state
           end.
  all: rewrite ?lookup_append_to, ?append_assoc_r.
  all: first [ exists ""; split; [by rewrite append_empty_r | done]
             | eexists; split; [reflexivity|];
               intros H1 H2; repeat case_decide; done ].
Qed.

(** X5. Over a session the content of every file is only extended at its
    end, and no file other than [feedback.txt] and [user_comments.txt] is
    written. *)
Theorem files_append_only runs s file :
  ∃ suffix,
    content (session runs s) file = content s file +:+ suffix ∧
    (file ≠ "feedback.txt" → file ≠ "user_comments.txt" → suffix = "").
Proof.
  revert s. induction runs as [|[env w] runs IH]; intros s; simpl.
  - exists "". by rewrite append_empty_r.
  - destruct (IH (final (run env w s))) as (t2 & E2 & N2).
    destruct (run_append_only env w s file) as (t1 & E1 & N1).
    exists (t1 +:+ t2). split.
    + by rewrite E2, E1, append_assoc_r.
    + intros H1 H2. by rewrite N1, N2.
Qed.

Example files_after_a_session :
  content (session [(demo_env, w_upload); (demo_env, w_like);
                    (demo_env, w_comment "Nice")] initial_state) "feedback.txt"
  = "Like for goldfish.jpeg" +:+ nl.
Proof. vm_compute. reflexivity. Qed.

(** * The thank-you messages *)

(** X6. The message that thanks for a comment is shown only in a run that
    has appended the comment, with its timestamp, to [user_comments.txt]. *)
Theorem thanks_after_comment env w s :
  st_success "Thank you for your comment!" ∈ out (run env w s) →
  content (final (run env w s)) "user_comments.txt"
  = content s "user_comments.txt" +:+ comment_text env w.
Proof.
  destruct (run env w s) as [r f o] eqn:Hrun. revert Hrun.
  unfold content. hide_conclusion. exec_run.
  all: intros [= <- <- <-]; show_conclusion; simpl_state; intros Hev.
  all: pick_event Hev; try not_of_classify.
  all: subst; simpl_state; rewrite ?lookup_append_to.
  all: repeat case_decide; try done; rewrite ?append_empty_r; reflexivity.
Qed.

Lemma thanks_after_comment_witness :
  content (final (run demo_env (w_comment "Nice") after_upload)) "user_comments.txt"
  = content after_upload "user_comments.txt"
    +:+ comment_text demo_env (w_comment "Nice").
Proof.
  apply (thanks_after_comment demo_env (w_comment "Nice") after_upload).
  event_at 13.
Defined.

(** * The download and the session state *)

Lemma classify_download_state env img s r f o label data file_name mime :
  classify env img s = mkOutcome r f o →
  st_download_button label data file_name mime ∈ o →
  r = Ok tt ∧
  ss_new_filename (session_state f) = Some file_name ∧
  ss_img_byte_arr (session_state f) = Some data ∧
  ss_img (session_state f) = ss_img (session_state s) ∧
  ∃ category, file_name = category +:+ "." +:+ lower (format img) ∧
              mime = "image/" +:+ lower (format img).
Proof.
  hide_conclusion. exec_classify.
  all: intros [= <- <- <-]; show_conclusion; intros Hev; pick_event Hev.
  all: injection Hev as -> -> -> ->; subst; simpl_state.
  all: split_and!; try reflexivity; by eexists.
Qed.

Lemma run_download_filename env w s label data file_name mime :
  st_download_button label data file_name mime ∈ out (run env w s) →
  ss_new_filename (session_state (final (run env w s))) = Some file_name.
Proof.
  destruct (run env w s) as [r f o] eqn:Hrun. revert Hrun.
  hide_conclusion. exec_run.
  all: intros [= <- <- <-]; show_conclusion; simpl_state; intros Hev.
  all: pick_event Hev.
  all: match goal with
       | H : classify _ _ _ = _ |- _ =>
           destruct (classify_download_state _ _ _ _ _ _ _ _ _ _ H Hev)
             as (_ & Hn & _)
       end.
  all: subst; simpl_state; done.
Qed.

(** X7. A download is offered only by a run that ends normally, and its
    file name and data are the ones the run leaves in the session state
    under [new_filename] and [img_byte_arr], beside the classified image
    under [img]; the MIME type is [image/] followed by the extension of the
    file name. *)
Theorem download_kept_in_session env w s label data file_name mime :
  st_download_button label data file_name mime ∈ out (run env w s) →
  res (run env w s) = Ok tt ∧
  ss_new_filename (session_state (final (run env w s))) = Some file_name ∧
  ss_img_byte_arr (session_state (final (run env w s))) = Some data ∧
  ss_img (session_state (final (run env w s))) = classified_image env w s ∧
  ∃ category ext, file_name = category +:+ "." +:+ ext ∧
                  mime = "image/" +:+ ext.
Proof.
  destruct (run env w s) as [r f o] eqn:Hrun. revert Hrun.
  unfold classified_image, accepted_upload. hide_conclusion. exec_run.
  all: intros [= <- <- <-]; show_conclusion; simpl_state; intros Hev.
  all: pick_event Hev.
  all: match goal with
       | H : classify _ _ _ = _ |- _ =>
           destruct (classify_download_state _ _ _ _ _ _ _ _ _ _ H Hev)
             as (-> & Hn & Hd & Hi & category & Hf & Hm)
       end.
  all: subst; simpl_state; use_cases; split_and!; eauto.
Qed.

Lemma download_kept_in_session_witness :
  res (run demo_env w_upload initial_state) = Ok tt ∧
  ss_new_filename (session_state (final (run demo_env w_upload initial_state)))
  = Some "goldfish.jpeg" ∧
  ss_img_byte_arr (session_state (final (run demo_env w_upload initial_state)))
  = Some [xff; xd8; x02; x0a; x00; x04; x01; x03; x00; xd9] ∧
  ss_img (session_state (final (run demo_env w_upload initial_state)))
  = classified_image demo_env w_upload initial_state ∧
  ∃ category ext, "goldfish.jpeg" = category +:+ "." +:+ ext ∧
                  "image/jpeg" = "image/" +:+ ext.
Proof.
  apply (download_kept_in_session demo_env w_upload initial_state
           "Download Renamed Image").
  event_at 14.
Defined.

Lemma classify_completes env img s r f o :
  classify env img s = mkOutcome r f o → r = Ok tt →
  ∃ data category,
    st_download_button "Download Renamed Image" data
      (category +:+ "." +:+ lower (format img))
      ("image/" +:+ lower (format img)) ∈ o.
Proof.
  hide_conclusion. exec_classify.
  all: intros [= <- <- <-]; show_conclusion; intros Hr; try discriminate Hr.
  all: eexists _, _; find_event.
Qed.

(** X8. On the "Image Classifier" view, a run that has an image to classify
    and ends normally offers the download, named after a category and the
    lower-cased format of the image. *)
Theorem completed_run_offers_download env w s img :
  page_of w = "Image Classifier" →
  classified_image env w s = Some img →
  res (run env w s) = Ok tt →
  ∃ data category,
    st_download_button "Download Renamed Image" data
      (category +:+ "." +:+ lower (format img))
      ("image/" +:+ lower (format img)) ∈ out (run env w s).
Proof.
  destruct (run env w s) as [r f o] eqn:Hrun. revert Hrun.
  unfold page_of, classified_image, accepted_upload. hide_conclusion. exec_run.
  all: intros [= <- <- <-]; show_conclusion; simpl_state; use_cases.
  all: intros Hp Hc Hr; try wrong_page Hp; try discriminate Hc;
       try discriminate Hr.
  all: injection Hc as ->.
  all: match goal with
       | H : classify _ _ _ = _ |- _ =>
           destruct (classify_completes _ _ _ _ _ _ H Hr) as (data & category & Hd);
           exists data, category; find_event_in Hd
       end.
Qed.

Lemma completed_run_offers_download_witness :
  ∃ data category,
    st_download_button "Download Renamed Image" data
      (category +:+ "." +:+ lower (format cat_img))
      ("image/" +:+ lower (format cat_img))
      ∈ out (run demo_env w_upload initial_state).
Proof.
  apply (completed_run_offers_download demo_env w_upload initial_state cat_img).
  - reflexivity.
  - reflexivity.
  - vm_compute. reflexivity.
Defined.

(** * What is stored and never read *)

Lemma classify_results_never_read env img im nf fs c p i fi b p' i' fi' b' :
  observable (classify env img (mkState (mkSession im p i fi nf b) fs c))
  = observable (classify env img (mkState (mkSession im p' i' fi' nf b') fs c)).
Proof.
  unfold observable. exec_classify. all: reflexivity.
Qed.

(** X9. The values the script keeps in the session state under [probs],
    [idxs], [feature_imp] and [img_byte_arr] are never read: with any other
    values there, a run has the same result and the same events, and leaves
    the same files, the same cached model and the same [img] and
    [new_filename]. *)
Theorem results_never_read env w s probs idxs feature_imp img_byte_arr :
  observable
    (run env w
       (mkState (with_results (session_state s) probs idxs feature_imp img_byte_arr)
                (files s) (model_cache s)))
  = observable (run env w s).
Proof.
  destruct s as [[im p i fi nf b] fs c]. unfold with_results, observable.
  simpl_state. exec_run.
  all: try reflexivity.
  all: match goal with
       | H1 : classify ?env ?img
                (mkState (mkSession ?im ?p1 ?i1 ?f1 ?nf ?b1) ?fs ?c) = _,
         H2 : classify ?env ?img
                (mkState (mkSession ?im ?p2 ?i2 ?f2 ?nf ?b2) ?fs ?c) = _ |- _ =>
           let E := fresh in
           pose proof (classify_results_never_read env img im nf fs c
                         p1 i1 f1 b1 p2 i2 f2 b2) as E;
           unfold observable in E; rewrite H1, H2 in E; simpl_state;
           injection E as -> -> -> -> -> ->; reflexivity
       end.
Qed.

(** * What stays in the session state *)

Lemma classify_keeps env img s r f o :
  classify env img s = mkOutcome r f o →
  ss_img (session_state f) = ss_img (session_state s) ∧
  (is_Some (ss_new_filename (session_state s)) →
   is_Some (ss_new_filename (session_state f))).
Proof.
  hide_conclusion. exec_classify.
  all: intros [= <- <- <-]; show_conclusion; subst; simpl_state.
  all: split; [reflexivity | by intros].
Qed.

Lemma run_keeps env w s :
  (is_Some (ss_img (session_state s)) →
   is_Some (ss_img (session_state (final (run env w s))))) ∧
  (is_Some (ss_new_filename (session_state s)) →
   is_Some (ss_new_filename (session_state (final (run env w s))))).
Proof.
  destruct (run env w s) as [r f o] eqn:Hrun. revert Hrun.
  hide_conclusion. exec_run.
  all: intros [= <- <- <-]; show_conclusion; subst; simpl_state.
  all: try match goal with
           | H : classify _ _ _ = _ |- _ =>
               destruct (classify_keeps _ _ _ _ _ _ H) as [Hi Hn];
               simpl_state; rewrite Hi
           end.
  all: split; eauto.
Qed.

(** X10. Nothing is ever removed from the session state: once an image is
    kept under [img], every later run of the session starts with an image
    there, and likewise for the file name under [new_filename]. *)
Theorem session_keeps runs s :
  (is_Some (ss_img (session_state s)) →
   is_Some (ss_img (session_state (session runs s)))) ∧
  (is_Some (ss_new_filename (session_state s)) →
   is_Some (ss_new_filename (session_state (session runs s)))).
Proof.
  revert s. induction runs as [|[env w] runs IH]; intros s; simpl; [done|].
  destruct (IH (final (run env w s))) as [IHi IHn].
  destruct (run_keeps env w s) as [Hi Hn]. split; auto.
Qed.

(** * Fewer than five categories *)

Lemma last_n_length {A} n (l : list A) :
  length (Py.last_n n l) = n `min` length l.
Proof. unfold Py.last_n. rewrite length_drop. lia. Qed.

Lemma top5_any_length probs :
  ∃ prob idxs,
    top5 probs = Ok (prob, idxs) ∧
    is_top_n (5 `min` length probs) probs prob idxs.
Proof.
  unfold top5. set (tail := Py.last_n 5 (argsort probs)).
  destruct (fancy_index_total probs (Py.reversed tail)) as [prob Hprob].
  { apply Forall_forall. intros i Hi. apply tail5_in_range.
    by apply elem_of_reverse. }
  rewrite Hprob. exists prob, (Py.reversed tail). split; [done|].
  apply fancy_index_Forall2 in Hprob.
  assert (Hlen : length (Py.reversed tail) = 5 `min` length probs).
  { unfold Py.reversed, tail.
    by rewrite length_reverse, last_n_length, argsort_length. }
  repeat split.
  - by rewrite <- (Forall2_length _ _ _ Hprob).
  - done.
  - unfold Py.reversed. rewrite reverse_Permutation. apply tail5_NoDup.
  - destruct (Forall2_lookup_l _ _ _ _ _ Hprob H) as (p & _ & Hp). eauto.
  - destruct (Forall2_lookup_l _ _ _ _ _ Hprob H) as (p & Hk & Hp). congruence.
  - intros a b p q Hab Ha Hb.
    destruct (Forall2_lookup_r _ _ _ _ _ Hprob Ha) as (i & Hi & Hpi).
    destruct (Forall2_lookup_r _ _ _ _ _ Hprob Hb) as (j & Hj & Hqj).
    unfold Py.reversed in Hi, Hj.
    apply reverse_lookup_Some in Hi as [Hi Hai], Hj as [Hj Hbj].
    assert (key_le probs j i) as Hle.
    { eapply (StronglySorted_lookup_le _ _ (tail5_sorted probs)); [|exact Hj|exact Hi].
      lia. }
    unfold key_le in Hle.
    by rewrite (value_at_lookup _ _ _ Hpi), (value_at_lookup _ _ _ Hqj) in Hle.
  - intros j x p Hx Hnot Hp.
    apply list_elem_of_lookup in Hp as [k Hk].
    destruct (Forall2_lookup_r _ _ _ _ _ Hprob Hk) as (i & Hi & Hpi).
    assert (key_le probs j i) as Hle.
    { apply tail5_dominates.
      - eapply lookup_lt_Some; eauto.
      - intros Hin. apply Hnot. by apply elem_of_reverse.
      - apply elem_of_reverse. eapply list_elem_of_lookup_2; eauto. }
    unfold key_le in Hle.
    by rewrite (value_at_lookup _ _ _ Hpi), (value_at_lookup _ _ _ Hx) in Hle.
Qed.

(** X11. Whenever the forward pass returns, [make_prediction] returns: its
    own indexing never raises.  For a classifier with [n] categories it
    returns the [min 5 n] highest softmax outputs in descending order with
    their indices, all of them when [n] is less than five and none when
    there is no category. *)
Theorem make_prediction_any_length env model processed_img logits s :
  model processed_img = Ok logits →
  ∃ prob idxs,
    res (make_prediction env model processed_img s) = Ok (prob, idxs) ∧
    is_top_n (5 `min` length (softmax env logits)) (softmax env logits) prob idxs.
Proof.
  intros Hmodel. rewrite make_prediction_res, Hmodel. apply top5_any_length.
Qed.

Lemma make_prediction_any_length_witness :
  ∃ prob idxs,
    res (make_prediction demo_env demo_model [1; 3; 2]%Q initial_state)
    = Ok (prob, idxs) ∧
    is_top_n (5 `min` length (softmax demo_env [1; 3; 2]%Q))
      (softmax demo_env [1; 3; 2]%Q) prob idxs.
Proof.
  apply (make_prediction_any_length demo_env demo_model _ [1; 3; 2]%Q).
  reflexivity.
Defined.

Example three_categories :
  res (make_prediction demo_env demo_model [1; 3; 2]%Q initial_state)
  = Ok ([(1 # 2); (1 # 3); (1 # 6)]%Q, [1; 2; 0]).
Proof. vm_compute. reflexivity. Qed.

Example no_category :
  res (run (mkEnv [] demo_preprocess (Ok (fun _ => Ok [])) normalise
              (fun _ input _ => Ok input) demo_open demo_save
              (fun _ => Ok tt) (fun _ _ => Ok tt) demo_now)
         w_upload initial_state)
  = Raise IndexError.
Proof. vm_compute. reflexivity. Qed.

(** * Feedback on the image just classified *)

Lemma like_written env w s nf :
  page_of w = "Connect to Us" →
  ss_new_filename (session_state s) = Some nf →
  clicked w "👍 Like" = true →
  open_append env "feedback.txt" = Ok tt →
  file_write "feedback.txt" (feedback_text "Like" nf) ∈ out (run env w s).
Proof.
  unfold page_of, feedback_text. exec_run.
  all: intros Hp Hnf Hc Ho; try wrong_page Hp; try congruence.
  all: injection Hnf as ->; find_event.
Qed.

(** X12. After a run that offered a download, a Like pressed in the next
    run, on the "Connect to Us" view, is written to [feedback.txt] with the
    file name of that download. *)
Theorem like_names_last_download env1 w1 env2 w2 s label data file_name mime :
  st_download_button label data file_name mime ∈ out (run env1 w1 s) →
  page_of w2 = "Connect to Us" →
  clicked w2 "👍 Like" = true →
  open_append env2 "feedback.txt" = Ok tt →
  file_write "feedback.txt" ("Like for " +:+ file_name +:+ nl)
    ∈ out (run env2 w2 (final (run env1 w1 s))).
Proof.
  intros Hd Hp Hc Ho.
  pose proof (run_download_filename _ _ _ _ _ _ _ Hd) as Hnf.
  by apply (like_written env2 w2 _ file_name).
Qed.

Lemma like_names_last_download_witness :
  file_write "feedback.txt" ("Like for " +:+ "goldfish.jpeg" +:+ nl)
    ∈ out (run demo_env w_like (final (run demo_env w_upload initial_state))).
Proof.
  apply (like_names_last_download demo_env w_upload demo_env w_like initial_state
           "Download Renamed Image"
           [xff; xd8; x02; x0a; x00; x04; x01; x03; x00; xd9] _ "image/jpeg").
  - event_at 14.
  - reflexivity.
  - reflexivity.
  - reflexivity.
Defined.

(** * When the model is loaded *)

(** X13. The model is loaded only on the "Image Classifier" view, when
    there is an image to classify and no model is cached: showing the page
    before any upload, or the other view, does not load it. *)
Theorem model_loaded_when_needed env w s :
  call_resnet50 ∈ out (run env w s) →
  page_of w = "Image Classifier" ∧
  (∃ img, classified_image env w s = Some img) ∧
  model_cache s = None.
Proof.
  intros Hev.
  destruct (run_classify _ _ _ _ Hev eq_refl) as (img & s' & Himg & Hc & Hp & Hin).
  split_and!; [done | eauto |].
  destruct (model_cache s) as [model|] eqn:E; [|done].
  destruct (classify env img s') as [r f o] eqn:Hcl.
  by destruct (classify_cached _ _ _ _ _ _ _ Hcl Hc) as [Hno _].
Qed.

Lemma model_loaded_when_needed_witness :
  page_of w_upload = "Image Classifier" ∧
  (∃ img, classified_image demo_env w_upload initial_state = Some img) ∧
  model_cache initial_state = None.
Proof.
  apply (model_loaded_when_needed demo_env w_upload initial_state).
  event_at 5.
Defined.

(** * The format of the encoding *)

Lemma lower_upper_char c : lower_char (upper_char (lower_char c)) = lower_char c.
Proof. destruct c as [[] [] [] [] [] [] [] []]; reflexivity. Qed.

Lemma lower_upper_lower s : lower (upper (lower s)) = lower s.
Proof.
  unfold lower, upper. induction s as [|c s IH]; simpl; [done|].
  by rewrite lower_upper_char, IH.
Qed.

Lemma classify_save env img s img' fmt :
  call_save img' fmt ∈ out (classify env img s) →
  img' = img ∧ fmt = upper (lower (format img)).
Proof.
  exec_classify.
  all: intros Hev; pick_event Hev.
  all: by injection Hev as -> ->.
Qed.

(** X14. The image a run encodes is the classified image, and the format it
    is encoded in is, up to the case of its letters, the extension the
    download gets: its lower-cased form is the lower-cased format of the
    image, whatever that format is. *)
Theorem encoded_in_named_format env w s img fmt :
  call_save img fmt ∈ out (run env w s) →
  classified_image env w s = Some img ∧ lower fmt = lower (format img).
Proof.
  intros Hev.
  destruct (run_classify _ _ _ _ Hev eq_refl) as (img0 & s' & Himg & _ & _ & Hin).
  destruct (classify_save _ _ _ _ _ Hin) as [-> ->].
  by rewrite lower_upper_lower.
Qed.

Lemma encoded_in_named_format_witness :
  classified_image demo_env w_upload initial_state = Some cat_img ∧
  lower "JPEG" = lower (format cat_img).
Proof.
  apply (encoded_in_named_format demo_env w_upload initial_state cat_img "JPEG").
  event_at 13.
Defined.

(** * Where an exception comes from *)












(** * The figures of a classification *)

(** The figures of a classification: the bar chart of the prediction, the
    image, and the attribution for the first index of the prediction. *)
Lemma classify_figures env img s fig :
  st_pyplot fig ∈ out (classify env img s) →
  ∃ model input logits prob idxs target feature_imp names,
    prepared env s img model input ∧
    model input = Ok logits ∧
    top5 (softmax env logits) = Ok (prob, idxs) ∧
    idxs !! 0 = Some target ∧
    IntegratedGradients_attribute env model input target = Ok feature_imp ∧
    Py.fancy_index (categories env) idxs = Ok names ∧
    (fig = barh (Py.reversed names) (Py.reversed prob)
             (replicate 4 "dodgerblue" ++ ["tomato"])%list "Top 5 Probabilities" ∨
     fig = imshow img ∨
     fig = image_attr feature_imp "Integrated Gradients Attributions").
Proof.
  unfold prepared, current_model. exec_classify.
  all: intros Hev; pick_event Hev.
  all: injection Hev as ->.
  all: do 8 eexists; split_and!; eauto using index_Ok.
Qed.




(** X18. The image a run shows is the classified image, and the attribution
    figure it shows is what the attribution returned for the model and the
    input of that image, with the top-1 index as target. *)
Theorem figures_of_classified_image env w s :
  (∀ img, st_pyplot (imshow img) ∈ out (run env w s) →
          classified_image env w s = Some img) ∧
  (∀ feature_imp title,
     st_pyplot (image_attr feature_imp title) ∈ out (run env w s) →
     ∃ img model input probs prob idxs target,
       classified_image env w s = Some img ∧
       prepared env s img model input ∧
       predicts env model input probs prob idxs ∧
       idxs !! 0 = Some target ∧ is_argmax probs target ∧
       IntegratedGradients_attribute env model input target = Ok feature_imp).
Proof.
  split.
  - intros img Hev.
    destruct (run_classify _ _ _ _ Hev eq_refl) as (img' & s' & Himg & _ & _ & Hin).
    destruct (classify_figures _ _ _ _ Hin)
      as (? & ? & ? & ? & ? & ? & ? & ? & _ & _ & _ & _ & _ & _ & [Hf | [Hf | Hf]]);
      try discriminate Hf.
    by injection Hf as ->.
  - intros feature_imp title Hev.
    destruct (run_classify _ _ _ _ Hev eq_refl) as (img & s' & Himg & Hc & _ & Hin).
    destruct (classify_figures _ _ _ _ Hin)
      as (model & input & logits & prob & idxs & target & f & names
          & Hp & Hm & Ht & Hi & Ha & _ & [Hf | [Hf | Hf]]); try discriminate Hf.
    injection Hf as -> ->.
    exists img, model, input, (softmax env logits), prob, idxs, target.
    split_and!; eauto using prepared_cache, top5_head_max, predicts_intro.
Qed.

(** * What a failing run leaves in the session state *)

(** X19. On the "Image Classifier" view, a run that has an image to classify
    leaves this image in the session state, whether or not the run ends
    normally: an upload that decodes is kept for the next runs also when
    its classification fails. *)
Theorem classified_image_kept env w s img :
  page_of w = "Image Classifier" →
  classified_image env w s = Some img →
  ss_img (session_state (final (run env w s))) = Some img.
Proof.
  destruct (run env w s) as [r f o] eqn:Hrun. revert Hrun.
  unfold page_of, classified_image, accepted_upload. hide_conclusion. exec_run.
  all: intros [= <- <- <-]; show_conclusion; simpl_state; use_cases.
  all: intros Hp Hc; try wrong_page Hp; try discriminate Hc.
  all: match goal with
       | H : classify _ _ _ = _ |- _ =>
           destruct (classify_keeps _ _ _ _ _ _ H) as [Hi _];
           simpl_state; by rewrite Hi
       end.
Qed.

Lemma classified_image_kept_witness :
  res (run offline_env w_upload initial_state) = Raise (LibraryError "URLError") ∧
  ss_img (session_state (final (run offline_env w_upload initial_state)))
  = Some cat_img.
Proof.
  split; [vm_compute; reflexivity|].
  apply (classified_image_kept offline_env w_upload initial_state cat_img);
    reflexivity.
Defined.

Lemma classify_names_before_save env img s r f o img' fmt :
  classify env img s = mkOutcome r f o →
  call_save img' fmt ∈ o →
  ∃ category,
    ss_new_filename (session_state f)
    = Some (category +:+ "." +:+ lower (format img)) ∧
    (r = Ok tt ∨
     ∃ e, Image_save env img fmt = Raise e ∧ r = Raise e ∧
          ss_img_byte_arr (session_state f) = ss_img_byte_arr (session_state s)).
Proof.
  hide_conclusion. exec_classify.
  all: intros [= <- <- <-]; show_conclusion; intros Hev; pick_event Hev.
  all: injection Hev as -> ->; subst; simpl_state.
  all: eexists; split; [reflexivity|]; eauto.
Qed.

(** X20. The file name is kept in the session state before the image is
    encoded: a run that reaches the encoding leaves the name under
    [new_filename], and when the encoding fails the run ends with its
    exception and [img_byte_arr] is as before, so that the name of an image
    for which no download was offered is in the session state. *)
Theorem filename_kept_before_encoding env w s img fmt :
  call_save img fmt ∈ out (run env w s) →
  ∃ category,
    ss_new_filename (session_state (final (run env w s)))
    = Some (category +:+ "." +:+ lower (format img)) ∧
    (res (run env w s) = Ok tt ∨
     ∃ e, Image_save env img fmt = Raise e ∧ res (run env w s) = Raise e ∧
          ss_img_byte_arr (session_state (final (run env w s)))
          = ss_img_byte_arr (session_state s)).
Proof.
  destruct (run env w s) as [r f o] eqn:Hrun. revert Hrun.
  hide_conclusion. exec_run.
  all: intros [= <- <- <-]; show_conclusion; simpl_state; intros Hev.
  all: pick_event Hev.
  all: match goal with
       | H : classify _ _ _ = _ |- _ =>
           destruct (classify_save _ _ _ _ _ ltac:(rewrite H; exact Hev)) as [-> _];
           destruct (classify_names_before_save _ _ _ _ _ _ _ _ H Hev)
             as (category & Hn & Hr)
       end.
  all: exists category; split; [done|].
  all: destruct Hr as [-> | (e & He & -> & Hb)]; [by left | right].
  all: exists e; split_and!; [done | done | by rewrite Hb].
Qed.

Lemma filename_kept_before_encoding_witness :
  ∃ category,
    ss_new_filename (session_state (final (run no_codec_env w_upload initial_state)))
    = Some (category +:+ "." +:+ lower (format cat_img)) ∧
    (res (run no_codec_env w_upload initial_state) = Ok tt ∨
     ∃ e, Image_save no_codec_env cat_img "JPEG" = Raise e ∧
          res (run no_codec_env w_upload initial_state) = Raise e ∧
          ss_img_byte_arr
            (session_state (final (run no_codec_env w_upload initial_state)))
          = ss_img_byte_arr (session_state initial_state)).
Proof.
  apply (filename_kept_before_encoding no_codec_env w_upload initial_state
           cat_img "JPEG").
  event_at 13.
Defined.
